(** * Semantic FAQ assistant: the question-answering pipeline

    A shallow embedding of the decision pipeline of the service:

    - [app/core/constants.py], [app/core/decorators.py]: the retry policy;
    - [app/services/router.py]: the topic classifier ("AI Router");
    - [app/services/similarity.py]: the similarity matcher and threshold gate;
    - [app/schemas/question.py]: the request and response schemas;
    - [app/api/endpoints.py]: the [ask_question] and [health_check]
      endpoints;
    - [app/core/auth.py]: the API key check;
    - [app/core/config.py], [app/main.py]: the embedding dimension and its
      validation at start-up;
    - [app/celery_app.py], [scripts/create_embeddings.py],
      [scripts/update_embeddings.py]: the embedding tasks and scripts.

    Python [float] is IEEE 754 binary64, modelled by the Standard Library's
    [spec_float] at precision 53.  Text is modelled by [string], a sequence of
    Unicode code points.  Remote collaborators (the chat model, the
    embeddings API, the completion service, the database engine) are
    parameters; every call to one of them is recorded in a call log, so that
    "is never invoked" is a statement about that log. *)

From Stdlib Require Import ZArith List Bool Lia.
From Stdlib Require Import Strings.Byte.
From Stdlib Require Import Permutation.
From Stdlib Require Import Sorting.Sorted.
From Stdlib Require Import Floats.SpecFloat.
Import ListNotations.

(** ** Text

    Python's [str] is a finite sequence of Unicode code points, and the
    code of the service reads text only through the built-ins of [str].
    A code point is a number; the constructors are named as those of the
    Standard Library's byte strings, which this type takes the place
    of. *)

Inductive string : Set :=
| EmptyString
| String (c : Z) (s : string).

(** A literal between double quotes stands for the code points it is the
    UTF-8 encoding of. *)

Module Utf8.

Definition code (b : Byte.byte) : Z := Z.of_N (Byte.to_N b).

Definition continuation (b : Byte.byte) : bool :=
  (128 <=? code b)%Z && (code b <? 192)%Z.

Fixpoint decode (bytes : list Byte.byte) : option string :=
  match bytes with
  | [] => Some EmptyString
  | b1 :: bytes1 =>
      let c1 := code b1 in
      if (c1 <? 128)%Z then option_map (String c1) (decode bytes1)
      else
        match bytes1 with
        | b2 :: bytes2 =>
            if negb (continuation b2) then None
            else if (c1 <? 192)%Z then None
            else if (c1 <? 224)%Z then
              option_map (String ((c1 - 192) * 64 + (code b2 - 128))%Z)
                (decode bytes2)
            else
              match bytes2 with
              | b3 :: bytes3 =>
                  if negb (continuation b3) then None
                  else if (c1 <? 240)%Z then
                    option_map
                      (String ((c1 - 224) * 4096 + (code b2 - 128) * 64
                               + (code b3 - 128))%Z)
                      (decode bytes3)
                  else
                    match bytes3 with
                    | b4 :: bytes4 =>
                        if negb (continuation b4) then None
                        else
                          option_map
                            (String ((c1 - 240) * 262144
                                     + (code b2 - 128) * 4096
                                     + (code b3 - 128) * 64
                                     + (code b4 - 128))%Z)
                            (decode bytes4)
                    | [] => None
                    end
              | [] => None
              end
        | [] => None
        end
  end.

Definition byte (n : Z) : list Byte.byte :=
  match Byte.of_N (Z.to_N n) with
  | Some b => [b]
  | None => []
  end.

Fixpoint encode (s : string) : list Byte.byte :=
  match s with
  | EmptyString => []
  | String c s' =>
      (if (c <? 128)%Z then byte c
       else if (c <? 2048)%Z then
         byte (192 + c / 64) ++ byte (128 + c mod 64)
       else if (c <? 65536)%Z then
         byte (224 + c / 4096) ++ byte (128 + (c / 64) mod 64)
         ++ byte (128 + c mod 64)
       else
         byte (240 + c / 262144) ++ byte (128 + (c / 4096) mod 64)
         ++ byte (128 + (c / 64) mod 64) ++ byte (128 + c mod 64))
      ++ encode s'
  end.

End Utf8.

Declare Scope str_scope.
Delimit Scope str_scope with string.
Bind Scope str_scope with string.
String Notation string Utf8.decode Utf8.encode : str_scope.

(** The operations of the Standard Library's strings that the development
    uses, on code points. *)

Module String.

Fixpoint length (s : string) : nat :=
  match s with
  | EmptyString => O
  | String _ s' => S (length s')
  end.

Fixpoint append (s1 s2 : string) : string :=
  match s1 with
  | EmptyString => s2
  | String c s1' => String c (append s1' s2)
  end.

Fixpoint eqb (s1 s2 : string) : bool :=
  match s1, s2 with
  | EmptyString, EmptyString => true
  | String c1 s1', String c2 s2' => (c1 =? c2)%Z && eqb s1' s2'
  | _, _ => false
  end.

(** [s2.startswith(s1)] *)
Fixpoint prefix (s1 s2 : string) : bool :=
  match s1 with
  | EmptyString => true
  | String c1 s1' =>
      match s2 with
      | EmptyString => false
      | String c2 s2' => if (c1 =? c2)%Z then prefix s1' s2' else false
      end
  end.

(** [sep.join(ls)] *)
Fixpoint concat (sep : string) (ls : list string) : string :=
  match ls with
  | [] => EmptyString
  | [s] => s
  | s :: ls' => append s (append sep (concat sep ls'))
  end.

Fixpoint of_list (l : list Z) : string :=
  match l with
  | [] => EmptyString
  | c :: l' => String c (of_list l')
  end.

End String.

Infix "++" := String.append (right associativity, at level 60) : str_scope.

Open Scope str_scope.
Open Scope list_scope.
Open Scope Z_scope.

(** ** Python floats *)

Module PyFloat.

Definition float := spec_float.

(** binary64 *)
Definition prec : Z := 53.
Definition emax : Z := 1024.

Definition of_Z (n : Z) : float := binary_normalize prec emax n 0 false.

Definition sub (x y : float) : float := SFsub prec emax x y.
Definition div (x y : float) : float := SFdiv prec emax x y.

(** The float denoted by the decimal literal [n / d] for integers [n] and
    [d] below 2^53: both are representable and the division is correctly
    rounded, so this is the double nearest to the decimal. *)
Definition decimal (n d : Z) : float := div (of_Z n) (of_Z d).

(** [x >= y]; false as soon as one side is NaN. *)
Definition ge (x y : float) : bool := SFleb y x.

(** [x < y]; false as soon as one side is NaN. *)
Definition lt (x y : float) : bool := SFltb x y.

Definition is_nan (x : float) : bool :=
  match x with S754_nan => true | _ => false end.

(** Nearest integer to [num / den] ([den > 0]), ties to the even one. *)
Definition round_half_even (num den : Z) : Z :=
  let q := num / den in
  let r := num mod den in
  match 2 * r ?= den with
  | Lt => q
  | Gt => q + 1
  | Eq => if Z.even q then q else q + 1
  end.

(** [round(x, 4)] on a float.  CPython prints the exact value of [x] with
    four digits after the point (correctly rounded, ties to even) and reads
    the decimal back as the nearest double.  NaN and the infinities round to
    themselves.  From exponent -13 on, the spacing of doubles exceeds 10^-4
    and the nearest double to the rounded decimal is [x] itself; below, the
    scaled integer is under 2^53 and the read-back is a correctly rounded
    division by 10^4. *)
Definition round4 (x : float) : float :=
  match x with
  | S754_finite s m e =>
      if -13 <=? e then x
      else
        let n := round_half_even (Zpos m * 10000) (2 ^ (- e)) in
        let r := div (of_Z n) (of_Z 10000) in
        if s then SFopp r else r
  | _ => x
  end.

End PyFloat.

(** ** Python strings *)

Module PyStr.

(** The code points [str.isspace] holds of, which are those [str.strip]
    removes, as closed intervals: U+0009..U+000D, U+001C..U+0020, U+0085,
    U+00A0, U+1680, U+2000..U+200A, U+2028, U+2029, U+202F, U+205F and
    U+3000. *)
Definition whitespace : list (Z * Z) :=
  [ (9, 13); (28, 32); (133, 133); (160, 160); (5760, 5760); (8192, 8202);
    (8232, 8233); (8239, 8239); (8287, 8287); (12288, 12288) ].

Definition within (c : Z) (interval : Z * Z) : bool :=
  (fst interval <=? c) && (c <=? snd interval).

Definition is_space (c : Z) : bool := existsb (within c) whitespace.

Fixpoint lstrip (s : string) : string :=
  match s with
  | EmptyString => EmptyString
  | String c s' => if is_space c then lstrip s' else s
  end.

Fixpoint rstrip (s : string) : string :=
  match s with
  | EmptyString => EmptyString
  | String c s' =>
      match rstrip s' with
      | EmptyString => if is_space c then EmptyString else String c EmptyString
      | t => String c t
      end
  end.

(** [s.strip()] *)
Definition strip (s : string) : string := rstrip (lstrip s).

(** The uppercase mapping of CPython 3.11 (Unicode 14.0), in two tables.
    An entry [(first, last, step, delta)] of the first stands for the code
    points [first], [first + step], ..., [last], each of which maps to
    itself plus [delta]; an entry of the second gives the code points a
    single one expands to.  Every other code point maps to itself. *)
Definition upper_simple : list (Z * Z * Z * Z) :=
  [(97, 122, 1, -32); (181, 181, 1, 743); (224, 246, 1, -32);
   (248, 254, 1, -32); (255, 255, 1, 121); (257, 303, 2, -1);
   (305, 305, 1, -232); (307, 311, 2, -1); (314, 328, 2, -1);
   (331, 375, 2, -1); (378, 382, 2, -1); (383, 383, 1, -300);
   (384, 384, 1, 195); (387, 389, 2, -1); (392, 392, 1, -1);
   (396, 396, 1, -1); (402, 402, 1, -1); (405, 405, 1, 97);
   (409, 409, 1, -1); (410, 410, 1, 163); (414, 414, 1, 130);
   (417, 421, 2, -1); (424, 424, 1, -1); (429, 429, 1, -1);
   (432, 432, 1, -1); (436, 438, 2, -1); (441, 441, 1, -1);
   (445, 445, 1, -1); (447, 447, 1, 56); (453, 453, 1, -1);
   (454, 454, 1, -2); (456, 456, 1, -1); (457, 457, 1, -2);
   (459, 459, 1, -1); (460, 460, 1, -2); (462, 476, 2, -1);
   (477, 477, 1, -79); (479, 495, 2, -1); (498, 498, 1, -1);
   (499, 499, 1, -2); (501, 501, 1, -1); (505, 543, 2, -1);
   (547, 563, 2, -1); (572, 572, 1, -1); (575, 576, 1, 10815);
   (578, 578, 1, -1); (583, 591, 2, -1); (592, 592, 1, 10783);
   (593, 593, 1, 10780); (594, 594, 1, 10782); (595, 595, 1, -210);
   (596, 596, 1, -206); (598, 599, 1, -205); (601, 601, 1, -202);
   (603, 603, 1, -203); (604, 604, 1, 42319); (608, 608, 1, -205);
   (609, 609, 1, 42315); (611, 611, 1, -207); (613, 613, 1, 42280);
   (614, 614, 1, 42308); (616, 616, 1, -209); (617, 617, 1, -211);
   (618, 618, 1, 42308); (619, 619, 1, 10743); (620, 620, 1, 42305);
   (623, 623, 1, -211); (625, 625, 1, 10749); (626, 626, 1, -213);
   (629, 629, 1, -214); (637, 637, 1, 10727); (640, 640, 1, -218);
   (642, 642, 1, 42307); (643, 643, 1, -218); (647, 647, 1, 42282);
   (648, 648, 1, -218); (649, 649, 1, -69); (650, 651, 1, -217);
   (652, 652, 1, -71); (658, 658, 1, -219); (669, 669, 1, 42261);
   (670, 670, 1, 42258); (837, 837, 1, 84); (881, 883, 2, -1);
   (887, 887, 1, -1); (891, 893, 1, 130); (940, 940, 1, -38);
   (941, 943, 1, -37); (945, 961, 1, -32); (962, 962, 1, -31);
   (963, 971, 1, -32); (972, 972, 1, -64); (973, 974, 1, -63);
   (976, 976, 1, -62); (977, 977, 1, -57); (981, 981, 1, -47);
   (982, 982, 1, -54); (983, 983, 1, -8); (985, 1007, 2, -1);
   (1008, 1008, 1, -86); (1009, 1009, 1, -80); (1010, 1010, 1, 7);
   (1011, 1011, 1, -116); (1013, 1013, 1, -96); (1016, 1016, 1, -1);
   (1019, 1019, 1, -1); (1072, 1103, 1, -32); (1104, 1119, 1, -80);
   (1121, 1153, 2, -1); (1163, 1215, 2, -1); (1218, 1230, 2, -1);
   (1231, 1231, 1, -15); (1233, 1327, 2, -1); (1377, 1414, 1, -48);
   (4304, 4346, 1, 3008); (4349, 4351, 1, 3008); (5112, 5117, 1, -8);
   (7296, 7296, 1, -6254); (7297, 7297, 1, -6253); (7298, 7298, 1, -6244);
   (7299, 7300, 1, -6242); (7301, 7301, 1, -6243); (7302, 7302, 1, -6236);
   (7303, 7303, 1, -6181); (7304, 7304, 1, 35266); (7545, 7545, 1, 35332);
   (7549, 7549, 1, 3814); (7566, 7566, 1, 35384); (7681, 7829, 2, -1);
   (7835, 7835, 1, -59); (7841, 7935, 2, -1); (7936, 7943, 1, 8);
   (7952, 7957, 1, 8); (7968, 7975, 1, 8); (7984, 7991, 1, 8);
   (8000, 8005, 1, 8); (8017, 8023, 2, 8); (8032, 8039, 1, 8);
   (8048, 8049, 1, 74); (8050, 8053, 1, 86); (8054, 8055, 1, 100);
   (8056, 8057, 1, 128); (8058, 8059, 1, 112); (8060, 8061, 1, 126);
   (8112, 8113, 1, 8); (8126, 8126, 1, -7205); (8144, 8145, 1, 8);
   (8160, 8161, 1, 8); (8165, 8165, 1, 7); (8526, 8526, 1, -28);
   (8560, 8575, 1, -16); (8580, 8580, 1, -1); (9424, 9449, 1, -26);
   (11312, 11359, 1, -48); (11361, 11361, 1, -1); (11365, 11365, 1, -10795);
   (11366, 11366, 1, -10792); (11368, 11372, 2, -1); (11379, 11379, 1, -1);
   (11382, 11382, 1, -1); (11393, 11491, 2, -1); (11500, 11502, 2, -1);
   (11507, 11507, 1, -1); (11520, 11557, 1, -7264); (11559, 11559, 1, -7264);
   (11565, 11565, 1, -7264); (42561, 42605, 2, -1); (42625, 42651, 2, -1);
   (42787, 42799, 2, -1); (42803, 42863, 2, -1); (42874, 42876, 2, -1);
   (42879, 42887, 2, -1); (42892, 42892, 1, -1); (42897, 42899, 2, -1);
   (42900, 42900, 1, 48); (42903, 42921, 2, -1); (42933, 42947, 2, -1);
   (42952, 42954, 2, -1); (42961, 42961, 1, -1); (42967, 42969, 2, -1);
   (42998, 42998, 1, -1); (43859, 43859, 1, -928); (43888, 43967, 1, -38864);
   (65345, 65370, 1, -32); (66600, 66639, 1, -40); (66776, 66811, 1, -40);
   (66967, 66977, 1, -39); (66979, 66993, 1, -39); (66995, 67001, 1, -39);
   (67003, 67004, 1, -39); (68800, 68850, 1, -64); (71872, 71903, 1, -32);
   (93792, 93823, 1, -32); (125218, 125251, 1, -34) ].

Definition upper_special : list (Z * list Z) :=
  [(223, [83; 83]); (329, [700; 78]); (496, [74; 780]);
   (912, [921; 776; 769]); (944, [933; 776; 769]); (1415, [1333; 1362]);
   (7830, [72; 817]); (7831, [84; 776]); (7832, [87; 778]);
   (7833, [89; 778]); (7834, [65; 702]); (8016, [933; 787]);
   (8018, [933; 787; 768]); (8020, [933; 787; 769]); (8022, [933; 787; 834]);
   (8064, [7944; 921]); (8065, [7945; 921]); (8066, [7946; 921]);
   (8067, [7947; 921]); (8068, [7948; 921]); (8069, [7949; 921]);
   (8070, [7950; 921]); (8071, [7951; 921]); (8072, [7944; 921]);
   (8073, [7945; 921]); (8074, [7946; 921]); (8075, [7947; 921]);
   (8076, [7948; 921]); (8077, [7949; 921]); (8078, [7950; 921]);
   (8079, [7951; 921]); (8080, [7976; 921]); (8081, [7977; 921]);
   (8082, [7978; 921]); (8083, [7979; 921]); (8084, [7980; 921]);
   (8085, [7981; 921]); (8086, [7982; 921]); (8087, [7983; 921]);
   (8088, [7976; 921]); (8089, [7977; 921]); (8090, [7978; 921]);
   (8091, [7979; 921]); (8092, [7980; 921]); (8093, [7981; 921]);
   (8094, [7982; 921]); (8095, [7983; 921]); (8096, [8040; 921]);
   (8097, [8041; 921]); (8098, [8042; 921]); (8099, [8043; 921]);
   (8100, [8044; 921]); (8101, [8045; 921]); (8102, [8046; 921]);
   (8103, [8047; 921]); (8104, [8040; 921]); (8105, [8041; 921]);
   (8106, [8042; 921]); (8107, [8043; 921]); (8108, [8044; 921]);
   (8109, [8045; 921]); (8110, [8046; 921]); (8111, [8047; 921]);
   (8114, [8122; 921]); (8115, [913; 921]); (8116, [902; 921]);
   (8118, [913; 834]); (8119, [913; 834; 921]); (8124, [913; 921]);
   (8130, [8138; 921]); (8131, [919; 921]); (8132, [905; 921]);
   (8134, [919; 834]); (8135, [919; 834; 921]); (8140, [919; 921]);
   (8146, [921; 776; 768]); (8147, [921; 776; 769]); (8150, [921; 834]);
   (8151, [921; 776; 834]); (8162, [933; 776; 768]); (8163, [933; 776; 769]);
   (8164, [929; 787]); (8166, [933; 834]); (8167, [933; 776; 834]);
   (8178, [8186; 921]); (8179, [937; 921]); (8180, [911; 921]);
   (8182, [937; 834]); (8183, [937; 834; 921]); (8188, [937; 921]);
   (64256, [70; 70]); (64257, [70; 73]); (64258, [70; 76]);
   (64259, [70; 70; 73]); (64260, [70; 70; 76]); (64261, [83; 84]);
   (64262, [83; 84]); (64275, [1348; 1350]); (64276, [1348; 1333]);
   (64277, [1348; 1339]); (64278, [1358; 1350]); (64279, [1348; 1341]) ].

Fixpoint simple_delta (c : Z) (table : list (Z * Z * Z * Z)) : option Z :=
  match table with
  | [] => None
  | (first, last, step, delta) :: table' =>
      if (first <=? c) && (c <=? last) && ((c - first) mod step =? 0)
      then Some delta
      else simple_delta c table'
  end.

Fixpoint special (c : Z) (table : list (Z * list Z)) : option (list Z) :=
  match table with
  | [] => None
  | (c', expansion) :: table' =>
      if c' =? c then Some expansion else special c table'
  end.

Definition upper_char (c : Z) : string :=
  match special c upper_special with
  | Some expansion => String.of_list expansion
  | None =>
      match simple_delta c upper_simple with
      | Some delta => String (c + delta) EmptyString
      | None => String c EmptyString
      end
  end.

(** [s.upper()] *)
Fixpoint upper (s : string) : string :=
  match s with
  | EmptyString => EmptyString
  | String c s' => upper_char c ++ upper s'
  end.

(** [needle in hay] *)
Fixpoint contains (needle hay : string) : bool :=
  String.prefix needle hay ||
  match hay with
  | EmptyString => false
  | String _ hay' => contains needle hay'
  end.

(** [s] is not empty and its last character is no whitespace. *)
Fixpoint ends_nonspace (s : string) : bool :=
  match s with
  | EmptyString => false
  | String c EmptyString => negb (is_space c)
  | String _ s' => ends_nonspace s'
  end.

(** [len(s)]: the number of code points *)
Definition len (s : string) : Z := Z.of_nat (String.length s).

(** Truthiness of a string: [if s] *)
Definition truthy (s : string) : bool :=
  match s with EmptyString => false | _ => true end.

(** The decimal digits of [n > 0], most significant first, before
    [digits]. *)
Fixpoint decimal_digits (fuel : nat) (n : Z) (digits : string) : string :=
  match fuel with
  | O => digits
  | S fuel' =>
      let digits' := String (48 + n mod 10) digits in
      if n / 10 =? 0 then digits'
      else decimal_digits fuel' (n / 10) digits'
  end.

(** [str(n)] for an integer *)
Definition str_int (n : Z) : string :=
  if n <? 0 then
    String 45 (decimal_digits (S (Z.to_nat (Z.log2 (- n)))) (- n) "")
  else decimal_digits (S (Z.to_nat (Z.log2 n))) n "".

(** No code point of the closed interval from [first] to [last] is
    whitespace. *)
Definition clear (first last : Z) : bool :=
  forallb (fun interval => (last <? fst interval) || (snd interval <? first))
    whitespace.

End PyStr.

(** ** Constants ([app/core/constants.py]) and settings ([app/core/config.py]) *)

Module Constants.

Definition DEFAULT_COLLECTION_NAME : string := "default".

Definition RETRY_MAX_ATTEMPTS : Z := 3.
Definition RETRY_MIN_WAIT : Z := 2.
Definition RETRY_MAX_WAIT : Z := 10.
Definition RETRY_MULTIPLIER : Z := 1.

Definition COMPLIANCE_MESSAGE : string :=
  "This is not really what I was trained for, therefore I cannot answer. Try again.".

End Constants.

Record Settings := mkSettings {
  similarity_threshold : PyFloat.float
}.

(** [similarity_threshold: float = 0.85] *)
Definition default_settings : Settings :=
  {| similarity_threshold := PyFloat.decimal 85 100 |}.

(** ** Exceptions, outcomes and the call log *)

Inductive Exn :=
| HTTPException (status_code : Z) (detail : string)
| Exception (message : string).

(** [str(e)]: status and detail for an [HTTPException]; any other
    exception is carried by the text [str] gives of it. *)
Definition str_exn (e : Exn) : string :=
  match e with
  | HTTPException status_code detail =>
      (PyStr.str_int status_code ++ ": " ++ detail)%string
  | Exception message => message
  end.

(** The status FastAPI answers with when [e] leaves the endpoint. *)
Definition status_of (e : Exn) : Z :=
  match e with
  | HTTPException status_code _ => status_code
  | Exception _ => 500
  end.

Inductive Outcome (A : Type) :=
| Return (a : A)
| Raise (e : Exn).
Arguments Return {A} a.
Arguments Raise {A} e.

(** One entry per interaction with something outside the process. *)
Inductive Call :=
| ClassifierCall (question : string)        (* classification_chain.invoke *)
| EmbeddingsCall (text : string)            (* client.embeddings.create *)
| DatabaseQuery (collection_name : option string)   (* query ... .first() *)
| CompletionCall (question : string)        (* get_openai_answer *)
| Sleep (seconds : Z).                      (* wait between two attempts *)

Definition Vector := list PyFloat.float.

(** [app/db/models.py], class [FAQ]: [embedding] and [collection_name] are
    nullable columns. *)
Record FAQ := mkFAQ {
  id : Z;
  question : string;
  answer : string;
  embedding : option Vector;
  collection_name : option string
}.

(** The rows of table [faqs], in the order they were inserted. *)
Record Session := mkSession {
  faqs : list FAQ
}.

(** The collaborators of the pipeline.  [Remote] is the state of the world
    outside the process; a remote call reads and changes it.

    [get_openai_answer] is defined in [app/services/openai_service.py], which
    is not among the sources at hand: the generator is taken as it is called.
    [cosine_distance] is pgvector's operator behind
    [FAQ.embedding.cosine_distance], and [order_by_desc_first] is the database
    engine answering [ORDER BY similarity DESC LIMIT 1] on the selected
    rows. *)
Class Collaborators (Remote : Type) := {
  settings : Settings;
  chain_invoke : string -> Remote -> Outcome string * Remote;
  embeddings_create : string -> Remote -> Outcome Vector * Remote;
  get_openai_answer : string -> Remote -> Outcome string * Remote;
  cosine_distance : Vector -> Vector -> PyFloat.float;
  order_by_desc_first :
    list (FAQ * PyFloat.float) -> option (FAQ * PyFloat.float)
}.

Section Effects.

Context {Remote : Type}.

Record World := mkWorld {
  remote : Remote;
  calls : list Call
}.

Definition M (A : Type) : Type := World -> Outcome A * World.

Definition ret {A} (a : A) : M A := fun w => (Return a, w).

Definition raise {A} (e : Exn) : M A := fun w => (Raise e, w).

Definition bind {A B} (m : M A) (k : A -> M B) : M B :=
  fun w =>
    match m w with
    | (Return a, w') => k a w'
    | (Raise e, w') => (Raise e, w')
    end.

(** [try: body  except Exception as e: handler(e)] *)
Definition try_except {A} (body : M A) (handler : Exn -> M A) : M A :=
  fun w =>
    match body w with
    | (Return a, w') => (Return a, w')
    | (Raise e, w') => handler e w'
    end.

Definition record (c : Call) (w : World) : World :=
  {| remote := remote w; calls := calls w ++ [c] |}.

(** A call to a collaborator: logged, then answered by the outside world. *)
Definition remote_call {A} (c : Call) (f : Remote -> Outcome A * Remote)
  : M A :=
  fun w =>
    let '(r, s) := f (remote w) in
    (r, {| remote := s; calls := calls w ++ [c] |}).

(** [time.sleep(seconds)] *)
Definition sleep (seconds : Z) : M unit :=
  fun w => (Return tt, record (Sleep seconds) w).

End Effects.

Arguments World : clear implicits.
Arguments M : clear implicits.

Declare Scope monad_scope.
Delimit Scope monad_scope with monad.
Notation "x <- c ;; k" := (bind c (fun x => k))
  (at level 61, c at next level, right associativity) : monad_scope.
Notation "' p <- c ;; k" := (bind c (fun x => let p := x in k))
  (at level 61, p pattern, c at next level, right associativity) : monad_scope.
Open Scope monad_scope.

(** ** The retry policy ([app/core/decorators.py]) *)

Module Decorators.
Import Constants.

Section Retry.
Context {Remote : Type}.

(** tenacity's [wait_exponential(multiplier, min, max)] at the attempt
    that has just failed. *)
Definition wait_exponential (multiplier min max : Z) (attempt_number : Z)
  : Z :=
  let exp := 2 ^ (attempt_number - 1) in
  let result := multiplier * exp in
  Z.max (Z.max 0 min) (Z.min result max).

(** tenacity's loop under [stop_after_attempt] and [reraise=True]: call
    [fn]; a value is returned at once; on an exception, if no attempt is
    left ([attempt_number >= max_attempt_number]) the exception is raised
    again as it is, otherwise sleep [wait attempt_number] and go round
    with the next attempt number.  [left] counts the attempts still
    allowed after the current one. *)
Fixpoint attempts {A} (wait : Z -> Z) (fn : M Remote A)
  (attempt_number : Z) (left : nat) : M Remote A :=
  fun w =>
    match fn w with
    | (Return v, w') => (Return v, w')
    | (Raise e, w') =>
        match left with
        | O => (Raise e, w')
        | S left' =>
            attempts wait fn (attempt_number + 1) left'
              (record (Sleep (wait attempt_number)) w')
        end
    end.

(** [retry(stop=stop_after_attempt(n), wait=wait, reraise=True)] *)
Definition retry {A} (max_attempt_number : Z) (wait : Z -> Z)
  (fn : M Remote A) : M Remote A :=
  attempts wait fn 1 (Z.to_nat (max_attempt_number - 1)).

Definition retry_on_api_error {A} (fn : M Remote A) : M Remote A :=
  retry RETRY_MAX_ATTEMPTS
    (wait_exponential RETRY_MULTIPLIER RETRY_MIN_WAIT RETRY_MAX_WAIT)
    fn.

End Retry.
End Decorators.

(** ** Schemas ([app/schemas/question.py]) *)

Record QuestionRequest := mkQuestionRequest {
  user_question : string
}.

Record QuestionResponse := mkQuestionResponse {
  source : string;
  matched_question : string;
  response_answer : string;
  similarity_score : option PyFloat.float
}.

(** The outcome of validating the request body: a request, or FastAPI's
    [RequestValidationError], raised before the endpoint is entered. *)
Inductive Validation :=
| Valid (request : QuestionRequest)
| RequestValidationError (msg : string).

(** Validation of the request body against
    [Field(..., min_length=1, max_length=1000)]; the bounds count code
    points. *)
Definition validate_QuestionRequest (raw : string) : Validation :=
  if PyStr.len raw <? 1 then
    RequestValidationError "String should have at least 1 character"
  else if 1000 <? PyStr.len raw then
    RequestValidationError "String should have at most 1000 characters"
  else Valid {| user_question := raw |}.

(** What the route answers: a body that fails validation is refused with
    status 422 and the endpoint is not run; otherwise the endpoint's outcome
    is the answer, with status 200 when it returns. *)
Inductive RouteOutcome :=
| Unprocessable (msg : string)
| Ran (outcome : Outcome QuestionResponse).

Definition route_status (r : RouteOutcome) : Z :=
  match r with
  | Unprocessable _ => 422
  | Ran (Return _) => 200
  | Ran (Raise e) => status_of e
  end.

(** The [source] tags and the sentinel of the response, under the names the
    specification gives them. *)
Definition source_local : string := "local".
Definition source_generated : string := "openai".
Definition source_off_topic : string := "compliance".
Definition matched_none : string := "N/A".

Section Services.

Context {Remote : Type} {C : Collaborators Remote}.

(** *** [app/services/embeddings.py] *)

Definition generate_embedding (text : string) : M Remote Vector :=
  Decorators.retry_on_api_error
    (remote_call (EmbeddingsCall text) (embeddings_create text)).

(** *** [app/services/router.py] *)

Definition classify_question (user_question : string) : M Remote bool :=
  try_except
    (content <- remote_call (ClassifierCall user_question)
                  (chain_invoke user_question) ;;
     let classification := PyStr.upper (PyStr.strip content) in
     let is_it_related :=
       PyStr.contains "IT_RELATED" classification
       || PyStr.contains "YES" classification in
     ret is_it_related)
    (fun _ => ret true).

Definition get_compliance_response : string := Constants.COMPLIANCE_MESSAGE.

Definition route_question (user_question : string)
  : M Remote (string * bool) :=
  is_it_related <- classify_question user_question ;;
  if is_it_related : bool then ret ("it_related", true)
  else ret ("compliance", false).

(** *** [app/services/similarity.py] *)

(** The two selected columns of one row: the entry and
    [1 - embedding <=> query_embedding], for rows passing
    [embedding IS NOT NULL]. *)
Definition similarity_row (query_embedding : Vector) (faq : FAQ)
  : option (FAQ * PyFloat.float) :=
  match embedding faq with
  | Some v =>
      Some (faq,
            PyFloat.sub (PyFloat.of_Z 1) (cosine_distance v query_embedding))
  | None => None
  end.

Fixpoint select_rows (query_embedding : Vector) (rows : list FAQ)
  : list (FAQ * PyFloat.float) :=
  match rows with
  | [] => []
  | faq :: rows' =>
      match similarity_row query_embedding faq with
      | Some r => r :: select_rows query_embedding rows'
      | None => select_rows query_embedding rows'
      end
  end.

(** [FAQ.collection_name == name] in SQL: a NULL column never matches. *)
Definition in_collection (name : string) (row : FAQ * PyFloat.float) : bool :=
  match collection_name (fst row) with
  | Some c => String.eqb c name
  | None => false
  end.

(** [if collection_name: query = query.filter(...)]: neither [None] nor the
    empty string filters. *)
Definition filter_collection (name : option string)
  (rows : list (FAQ * PyFloat.float)) : list (FAQ * PyFloat.float) :=
  match name with
  | Some n => if PyStr.truthy n then filter (in_collection n) rows else rows
  | None => rows
  end.

(** The rows the query compares: embedding present, collection matching. *)
Definition compared_rows (db : Session) (query_embedding : Vector)
  (name : option string) : list (FAQ * PyFloat.float) :=
  filter_collection name (select_rows query_embedding (faqs db)).

Definition search_similar_faq (db : Session) (user_question : string)
  (name : option string) : M Remote (option FAQ * PyFloat.float) :=
  query_embedding <- generate_embedding user_question ;;
  result <- remote_call (DatabaseQuery name)
              (fun s =>
                 (Return (order_by_desc_first
                            (compared_rows db query_embedding name)), s)) ;;
  match result with
  | None => ret (None, S754_zero false)
  | Some (best_faq, similarity) => ret (Some best_faq, similarity)
  end.

(** Truthiness of an optional row object: [if faq] *)
Definition present {A} (o : option A) : bool :=
  match o with Some _ => true | None => false end.

Definition find_best_match (db : Session) (user_question : string)
  (threshold : PyFloat.float) (name : option string)
  : M Remote (option FAQ * PyFloat.float * bool) :=
  '(faq, similarity) <- search_similar_faq db user_question name ;;
  if present faq && PyFloat.ge similarity threshold
  then ret (faq, similarity, true)
  else ret (faq, similarity, false).

(** *** [app/api/endpoints.py] *)

Definition ask_question (request : QuestionRequest) (db : Session)
  : M Remote QuestionResponse :=
  let user_question := PyStr.strip (user_question request) in
  if negb (PyStr.truthy user_question) then
    raise (HTTPException 400 "Question cannot be empty")
  else
    try_except
      ('(route_type, should_continue) <- route_question user_question ;;
       if negb should_continue then
         ret {| source := "compliance";
                matched_question := "N/A";
                response_answer := get_compliance_response;
                similarity_score := None |}
       else
         '(faq, similarity, is_above_threshold) <-
            find_best_match db user_question
              (similarity_threshold settings) None ;;
         match (if is_above_threshold : bool then faq else None) with
         | Some hit =>
             ret {| source := "local";
                    matched_question := question hit;
                    response_answer := answer hit;
                    similarity_score := Some (PyFloat.round4 similarity) |}
         | None =>
             openai_answer <- remote_call (CompletionCall user_question)
                                (get_openai_answer user_question) ;;
             ret {| source := "openai";
                    matched_question := "N/A";
                    response_answer := openai_answer;
                    similarity_score :=
                      if present faq then Some (PyFloat.round4 similarity)
                      else None |}
         end)
      (fun e =>
         raise (HTTPException 500
                  ("Error processing your question: " ++ str_exn e)%string)).

(** The route [POST /ask-question]: the body is validated against
    [QuestionRequest] first, and the endpoint runs on a valid request
    only.  (The authentication dependency is outside the pipeline and
    left out.) *)
Definition post_ask_question (raw : string) (db : Session)
  : World Remote -> RouteOutcome * World Remote :=
  fun w =>
    match validate_QuestionRequest raw with
    | Valid request =>
        let '(outcome, w') := ask_question request db w in
        (Ran outcome, w')
    | RequestValidationError msg => (Unprocessable msg, w)
    end.

End Services.

(** ** The database engine *)

Module Postgres.
Import PyFloat.

(** Ordering of [double precision] in the engine: NaN equals NaN and sorts
    above every other value; otherwise the IEEE comparison. *)
Definition float8_cmp (a b : float) : comparison :=
  match SFcompare a b with
  | Some c => c
  | None =>
      match is_nan a, is_nan b with
      | true, true => Eq
      | true, false => Gt
      | _, _ => Lt
      end
  end.

Definition float8_ge (a b : float) : bool :=
  match float8_cmp a b with Lt => false | _ => true end.

Definition float8_eq (a b : float) : bool :=
  match float8_cmp a b with Eq => true | _ => false end.

(** What [ORDER BY similarity DESC LIMIT 1] may answer on [rows]: nothing
    when there is no row, otherwise one of the rows, whose similarity no
    other row exceeds.  The statement fixes no order among rows of equal
    similarity. *)
Definition answers_first_by_desc (rows : list (FAQ * float))
  (result : option (FAQ * float)) : Prop :=
  match result with
  | None => rows = []
  | Some r =>
      In r rows /\ forall r', In r' rows -> float8_ge (snd r) (snd r') = true
  end.

(** What [ORDER BY similarity DESC] may answer on [rows]: the rows in some
    order in which no row comes before a row of higher similarity.  The
    statement fixes no order among rows of equal similarity.  [.first()]
    (a [LIMIT 1]) then takes the head of that list, [hd_error]. *)
Definition ordered_by_desc (rows sorted : list (FAQ * float)) : Prop :=
  Permutation rows sorted
  /\ StronglySorted (fun r r' => float8_ge (snd r) (snd r') = true) sorted.

(** Two engines.  Both scan the rows and keep a row of highest similarity;
    among rows of equal similarity the first keeps the earliest row, the
    second the latest. *)
Fixpoint keep_earliest (rows : list (FAQ * float)) : option (FAQ * float) :=
  match rows with
  | [] => None
  | r :: rows' =>
      match keep_earliest rows' with
      | None => Some r
      | Some b => if float8_ge (snd r) (snd b) then Some r else Some b
      end
  end.

Fixpoint keep_latest (rows : list (FAQ * float)) : option (FAQ * float) :=
  match rows with
  | [] => None
  | r :: rows' =>
      match keep_latest rows' with
      | None => Some r
      | Some b => if float8_ge (snd b) (snd r) then Some b else Some r
      end
  end.

End Postgres.

(** ** pgvector's cosine distance *)

Module Pgvector.

(** Vector elements and the three accumulators are binary32. *)
Definition prec32 : Z := 24.
Definition emax32 : Z := 128.

Definition real (n : Z) : PyFloat.float :=
  binary_normalize prec32 emax32 n 0 false.

(** The widening [(double) x], exact. *)
Definition to_double (x : PyFloat.float) : PyFloat.float :=
  match x with
  | S754_finite s m e => binary_round PyFloat.prec PyFloat.emax s m e
  | _ => x
  end.

Fixpoint accumulate (a b : Vector)
  (similarity norma normb : PyFloat.float)
  : PyFloat.float * PyFloat.float * PyFloat.float :=
  match a, b with
  | x :: a', y :: b' =>
      accumulate a' b'
        (SFadd prec32 emax32 similarity (SFmul prec32 emax32 x y))
        (SFadd prec32 emax32 norma (SFmul prec32 emax32 x x))
        (SFadd prec32 emax32 normb (SFmul prec32 emax32 y y))
  | _, _ => (similarity, norma, normb)
  end.

(** [similarity / sqrt(norma * normb)] in double precision, kept within
    [-1, 1], and the distance [1.0 - similarity].  A vector of norm zero
    makes the quotient 0/0, a NaN, which the two range tests let through. *)
Definition cosine_distance (a b : Vector) : PyFloat.float :=
  let '(similarity, norma, normb) :=
    accumulate a b (S754_zero false) (S754_zero false) (S754_zero false) in
  let similarity :=
    PyFloat.div (to_double similarity)
      (SFsqrt PyFloat.prec PyFloat.emax
         (SFmul PyFloat.prec PyFloat.emax
            (to_double norma) (to_double normb))) in
  let similarity :=
    if SFltb (PyFloat.of_Z 1) similarity then PyFloat.of_Z 1
    else if SFltb similarity (PyFloat.of_Z (-1)) then PyFloat.of_Z (-1)
    else similarity in
  PyFloat.sub (PyFloat.of_Z 1) similarity.

(** The squared norm the operator accumulates for a stored vector. *)
Fixpoint norm_squared (a : Vector) : PyFloat.float :=
  match a with
  | [] => S754_zero false
  | x :: a' =>
      SFadd prec32 emax32 (SFmul prec32 emax32 x x) (norm_squared a')
  end.

Definition zero_norm (a : Vector) : bool :=
  SFeqb (norm_squared a) (S754_zero false).

End Pgvector.

(** ** Scripted collaborators

    Deterministic stand-ins for the remote services: the classifier and the
    generator answer with a fixed outcome, the embeddings API works through
    a list of outcomes, one per call, and fails once the list is used up. *)

Module Scripted.

Record Script := mkScript {
  classifier_reply : Outcome string;
  embeddings_replies : list (Outcome Vector);
  completion_reply : Outcome string
}.

Definition invoke (_ : string) (s : Script) : Outcome string * Script :=
  (classifier_reply s, s).

Definition create (_ : string) (s : Script) : Outcome Vector * Script :=
  match embeddings_replies s with
  | r :: rest =>
      (r, {| classifier_reply := classifier_reply s;
             embeddings_replies := rest;
             completion_reply := completion_reply s |})
  | [] => (Raise (Exception "Connection error."), s)
  end.

Definition complete (_ : string) (s : Script) : Outcome string * Script :=
  (completion_reply s, s).

Definition earliest : Collaborators Script :=
  {| settings := default_settings;
     chain_invoke := invoke;
     embeddings_create := create;
     get_openai_answer := complete;
     cosine_distance := Pgvector.cosine_distance;
     order_by_desc_first := Postgres.keep_earliest |}.

Definition latest : Collaborators Script :=
  {| settings := default_settings;
     chain_invoke := invoke;
     embeddings_create := create;
     get_openai_answer := complete;
     cosine_distance := Pgvector.cosine_distance;
     order_by_desc_first := Postgres.keep_latest |}.

Definition start (s : Script) : World Script :=
  {| remote := s; calls := [] |}.

(** Some vectors and rows. *)
Definition v10 : Vector := [Pgvector.real 1; Pgvector.real 0].
Definition v01 : Vector := [Pgvector.real 0; Pgvector.real 1].
Definition v34 : Vector := [Pgvector.real 3; Pgvector.real 4].
Definition v43 : Vector := [Pgvector.real 4; Pgvector.real 3].
Definition v00 : Vector := [Pgvector.real 0; Pgvector.real 0].
Definition v11 : Vector := [Pgvector.real 1; Pgvector.real 1].
Definition v71 : Vector := [Pgvector.real 7; Pgvector.real 1].
Definition v0227 : Vector := [Pgvector.real 2; Pgvector.real 27].
Definition v0811 : Vector := [Pgvector.real 8; Pgvector.real 11].

Definition faq_reset : FAQ :=
  {| id := 1; question := "reset password";
     answer := "Use the link on the sign-in page.";
     embedding := Some v34; collection_name := Some "default" |}.

Definition faq_email : FAQ :=
  {| id := 2; question := "change email";
     answer := "Open the profile page.";
     embedding := Some v34; collection_name := Some "default" |}.

Definition faq_pending : FAQ :=
  {| id := 3; question := "delete account";
     answer := "Ask support.";
     embedding := None; collection_name := Some "default" |}.

Definition faq_zero : FAQ :=
  {| id := 4; question := "export data";
     answer := "Use the export button.";
     embedding := Some v00; collection_name := Some "default" |}.

Definition faq_notify : FAQ :=
{| id := 5; question := "mute notifications";
   answer := "Open the notification settings.";
   embedding := Some v0227; collection_name := Some "default" |}.

Definition in_domain (replies : list (Outcome Vector)) : Script :=
  {| classifier_reply := Return "IT_RELATED";
     embeddings_replies := replies;
     completion_reply := Return "Try turning it off and on again." |}.

End Scripted.

(** A text made of whitespace only (the empty text included): exactly the
    texts [strip] empties.  Whitespace is that of [PyStr.is_space]. *)
Fixpoint all_space (s : string) : bool :=
match s with
| EmptyString => true
| String c s' => PyStr.is_space c && all_space s'
end.

(** The first character of [s], if any, is no whitespace. *)
Definition starts_nonspace (s : string) : bool :=
match s with
| EmptyString => false
| String c _ => negb (PyStr.is_space c)
end.

(** The log of [k] attempts at the embeddings API, two seconds apart. *)
Fixpoint embedding_attempts (text : string) (k : nat) : list Call :=
match k with
| O => []
| S O => [EmbeddingsCall text]
| S k' => embedding_attempts text k' ++ [Sleep 2; EmbeddingsCall text]
end.

(** The sequences of calls one request for the question [q] (already
    stripped) can make: none; the classifier alone; then one to three
    attempts at the embeddings API; after a successful one the database
    query; after that, possibly, the generator. *)
Definition request_logs (q : string) : list (list Call) :=
[ [];
  [ClassifierCall q];
  ClassifierCall q :: embedding_attempts q 3 ]
++ flat_map
     (fun k =>
        [ ClassifierCall q :: embedding_attempts q k ++ [DatabaseQuery None];
          ClassifierCall q :: embedding_attempts q k
            ++ [DatabaseQuery None; CompletionCall q] ])
     [1%nat; 2%nat; 3%nat].

Definition is_classifier_call (c : Call) : bool :=
match c with ClassifierCall _ => true | _ => false end.

Definition is_embeddings_call (c : Call) : bool :=
match c with EmbeddingsCall _ => true | _ => false end.

Definition is_database_query (c : Call) : bool :=
match c with DatabaseQuery _ => true | _ => false end.

Definition is_completion_call (c : Call) : bool :=
match c with CompletionCall _ => true | _ => false end.

Definition count_calls (p : Call -> bool) (log : list Call) : nat :=
List.length (filter p log).

(** Seconds spent sleeping between attempts. *)
Fixpoint slept (log : list Call) : Z :=
match log with
| [] => 0
| Sleep seconds :: log' => seconds + slept log'
| _ :: log' => slept log'
end.

(** The text a call carries to a remote model, if any. *)
Definition call_text (c : Call) : option string :=
match c with
| ClassifierCall t | EmbeddingsCall t | CompletionCall t => Some t
| DatabaseQuery _ | Sleep _ => None
end.

(** ** Authentication ([app/core/auth.py]) *)

Module Auth.

(** An [HTTPException] with its response headers. *)
Record HTTPError := mkHTTPError {
  status_code : Z;
  detail : string;
  headers : list (string * string)
}.

(** [s.startswith(p)] *)
Definition startswith (p s : string) : bool := String.prefix p s.

(** [s[n:]] for [n >= 0] *)
Fixpoint slice_from (n : nat) (s : string) : string :=
  match n, s with
  | O, _ => s
  | S _, EmptyString => EmptyString
  | S n', String _ s' => slice_from n' s'
  end.

Definition unauthorized (detail : string) : HTTPError :=
  {| status_code := 401;
     detail := detail;
     headers := [("WWW-Authenticate", "Bearer")] |}.

(** [get_token]: [api_key] is the value of the [Authorization] header as
    the security scheme hands it over, [None] when there is none;
    [api_secret_key] is [settings.api_secret_key]. *)
Definition get_token (api_secret_key : string) (api_key : option string)
  : HTTPError + string :=
  match api_key with
  | None =>
      inl (unauthorized
             "Missing API key. Provide it in the 'Authorization' header.")
  | Some api_key =>
      let api_key :=
        if startswith "Bearer " api_key then slice_from 7 api_key
        else api_key in
      if negb (String.eqb api_key api_secret_key)
      then inl (unauthorized "Invalid API key")
      else inr api_key
  end.

End Auth.

(** ** The health endpoint ([app/api/endpoints.py]) *)

Module Health.

Record HealthResponse := mkHealthResponse {
  status : string;
  database : string;
  version : string
}.

(** [health_check]: [select_1] is the outcome of
    [db.execute(text("SELECT 1"))]. *)
Definition health_check (select_1 : Outcome unit) : HealthResponse :=
  let db_status :=
    match select_1 with
    | Return _ => "connected"
    | Raise _ => "disconnected"
    end in
  {| status :=
       if String.eqb db_status "connected" then "healthy" else "unhealthy";
     database := db_status;
     version := "1.0.0" |}.

End Health.

(** ** Start-up ([app/core/config.py], [app/main.py]) *)

Module Startup.

(** The exceptions start-up tells apart: [ValueError] (and its subclasses)
    and every other [Exception]. *)
Inductive Error :=
| ValueError (message : string)
| OtherError (message : string).

Inductive Result (A : Type) :=
| Done (a : A)
| Failed (e : Error).
Arguments Done {A} a.
Arguments Failed {A} e.

Definition EMBEDDING_DIMENSIONS : list (string * Z) :=
  [ ("text-embedding-3-small", 1536);
    ("text-embedding-3-large", 3072);
    ("text-embedding-ada-002", 1536) ].

(** [d[key]], [None] standing for [key not in d] *)
Fixpoint get (key : string) (d : list (string * Z)) : option Z :=
  match d with
  | [] => None
  | (k, v) :: d' => if String.eqb k key then Some v else get key d'
  end.

(** [str(l)] for a list of strings free of quotes and escapes *)
Definition repr_list (l : list string) : string :=
  ("[" ++ String.concat ", " (map (fun s => "'" ++ s ++ "'") l) ++ "]")%string.

Definition str_int (n : Z) : string := PyStr.str_int n.

(** The property [Settings.embedding_dimension] *)
Definition embedding_dimension (embedding_model : string) : Result Z :=
  match get embedding_model EMBEDDING_DIMENSIONS with
  | None =>
      let supported_models := map fst EMBEDDING_DIMENSIONS in
      Failed (ValueError
                ("Unsupported embedding model: '" ++ embedding_model ++ "'. "
                 ++ "Supported models: " ++ repr_list supported_models ++ ". "
                 ++ "Note: Changing models requires database migration.")%string)
  | Some dimension => Done dimension
  end.

Definition newline : string := String 10 EmptyString.

Definition mismatch_message (db_dimension : Z) (embedding_model : string)
  (config_dimension : Z) : string :=
  ("CRITICAL: Embedding dimension mismatch detected!" ++ newline
   ++ "  - Database schema expects: " ++ str_int db_dimension
   ++ " dimensions" ++ newline
   ++ "  - Config model '" ++ embedding_model ++ "' produces: "
   ++ str_int config_dimension ++ " dimensions" ++ newline
   ++ "  - This will cause embedding insertion failures." ++ newline
   ++ "  - To fix: Run database migration or change EMBEDDING_MODEL in .env"
  )%string.

(** The check of the stored dimension in [lifespan].  [row] is the outcome
    of reading [atttypmod] of column [faqs.embedding]: an exception, no
    row, or the row's number.  A [ValueError] leaves the block, any other
    exception is logged and dropped. *)
Definition validate_dimension (embedding_model : string)
  (row : Result (option Z)) : Result unit :=
  let body :=
    match row with
    | Failed e => Failed e
    | Done None => Done tt
    | Done (Some atttypmod) =>
        if 0 <? atttypmod then
          let db_dimension := atttypmod in
          match embedding_dimension embedding_model with
          | Failed e => Failed e
          | Done config_dimension =>
              if negb (db_dimension =? config_dimension) then
                Failed (ValueError
                          (mismatch_message db_dimension embedding_model
                             config_dimension))
              else Done tt
          end
        else Done tt
    end in
  match body with
  | Failed (ValueError message) => Failed (ValueError message)
  | Failed (OtherError _) => Done tt
  | Done _ => Done tt
  end.

(** [lifespan] up to its [yield].  The dimension is read once for the log
    before anything else; a failure of [init_db] is logged and dropped. *)
Definition lifespan_startup (embedding_model : string)
  (init_db : Result unit) (row : Result (option Z)) : Result unit :=
  match embedding_dimension embedding_model with
  | Failed e => Failed e
  | Done _ =>
      match init_db with
      | Done _ | Failed _ => validate_dimension embedding_model row
      end
  end.

End Startup.

(** ** Background tasks ([app/celery_app.py]) and the embedding scripts
    ([scripts/create_embeddings.py], [scripts/update_embeddings.py])

    The session is the list of rows; assigning [faq.embedding] and
    committing replaces the row in place.  Queries and commits are taken to
    succeed, except in the batch task, and [query.all()] to answer the rows
    in the order of the list. *)

(** [faq.embedding = embedding] *)
Definition with_embedding (faq : FAQ) (v : Vector) : FAQ :=
{| id := id faq;
   question := question faq;
   answer := answer faq;
   embedding := Some v;
   collection_name := collection_name faq |}.

(** [faq.embedding is None] *)
Definition lacks_embedding (faq : FAQ) : bool := negb (present (embedding faq)).

(** [FAQ.collection_name == name] in SQL on a row of [faqs] *)
Definition row_in_collection (name : string) (faq : FAQ) : bool :=
match collection_name faq with
| Some c => String.eqb c name
| None => false
end.

(** The rows [create_embeddings] selects: no embedding and, when a
    collection is named, that collection. *)
Definition without_embedding (name : option string) (faq : FAQ) : bool :=
lacks_embedding faq
&& match name with
   | Some n => if PyStr.truthy n then row_in_collection n faq else true
   | None => true
   end.

(** The rows [update_embeddings] selects. *)
Definition needs_update (force : bool) (faq : FAQ) : bool :=
if lacks_embedding faq then true
else if force then true
else false.

(** The arguments of [generate_embedding_async.delay(faq.id, faq.question)] *)
Definition Task : Type := (Z * string)%type.

Definition task_for (faq : FAQ) : Task := (id faq, question faq).

(** What a task returns: [{"status": "success", "faq_id": ...}],
    [{"status": "error", "message": ...}] or
    [{"status": "success", "processed": ..., "total": ...}]. *)
Inductive TaskResult :=
| TaskSuccess (faq_id : Z)
| TaskError (message : string)
| BatchSuccess (processed total : Z).

(** [faq = db.query(FAQ).filter(FAQ.id == question_id).first()] followed by
    [faq.embedding = embedding]: [None] when no row has that id. *)
Fixpoint set_embedding (question_id : Z) (v : Vector) (rows : list FAQ)
  : option (list FAQ) :=
match rows with
| [] => None
| faq :: rows' =>
    if id faq =? question_id then Some (with_embedding faq v :: rows')
    else option_map (cons faq) (set_embedding question_id v rows')
end.

Section Maintenance.

Context {Remote : Type} {C : Collaborators Remote}.

(** One round of the synchronous loop of the scripts:
    [try: faq.embedding = generate_embedding(faq.question)]
    [except Exception: continue] *)
Definition embed_row (faq : FAQ) : M Remote FAQ :=
  try_except
    (embedding <- generate_embedding (question faq) ;;
     ret (with_embedding faq embedding))
    (fun _ => ret faq).

(** The loop over the selected rows, the others staying as they are. *)
Fixpoint embed_rows (selected : FAQ -> bool) (rows : list FAQ)
  : M Remote (list FAQ) :=
  match rows with
  | [] => ret []
  | faq :: rows' =>
      faq' <- (if selected faq then embed_row faq else ret faq) ;;
      rows'' <- embed_rows selected rows' ;;
      ret (faq' :: rows'')
  end.

(** [create_embeddings(dry_run, collection_name, use_async)]: the database
    after the run and the tasks queued. *)
Definition create_embeddings (dry_run : bool) (name : option string)
  (use_async : bool) (db : Session) : M Remote (Session * list Task) :=
  let faqs_without_embeddings := filter (without_embedding name) (faqs db) in
  match faqs_without_embeddings with
  | [] => ret (db, [])
  | _ =>
      if dry_run then ret (db, [])
      else if use_async then ret (db, map task_for faqs_without_embeddings)
      else
        rows <- embed_rows (without_embedding name) (faqs db) ;;
        ret ({| faqs := rows |}, [])
  end.

(** [update_embeddings(dry_run, force, use_async)] *)
Definition update_embeddings (dry_run force use_async : bool) (db : Session)
  : M Remote (Session * list Task) :=
  match faqs db with
  | [] => ret (db, [])
  | all_faqs =>
      let faqs_to_update := filter (needs_update force) all_faqs in
      match faqs_to_update with
      | [] => ret (db, [])
      | _ =>
          if dry_run then ret (db, [])
          else if use_async then ret (db, map task_for faqs_to_update)
          else
            rows <- embed_rows (needs_update force) all_faqs ;;
            ret ({| faqs := rows |}, [])
      end
  end.

(** The task [generate_embedding_async(question_id, question_text)], run
    on the database [db]. *)
Definition generate_embedding_async (question_id : Z)
  (question_text : string) (db : Session)
  : M Remote (TaskResult * Session) :=
  try_except
    (embedding <- generate_embedding question_text ;;
     match set_embedding question_id embedding (faqs db) with
     | Some rows => ret (TaskSuccess question_id, {| faqs := rows |})
     | None => ret (TaskError "FAQ not found", db)
     end)
    (fun e => ret (TaskError (str_exn e), db)).




End Maintenance.

(** Two versions of a row that differ at most in the embedding. *)
Definition same_entry (a b : FAQ) : Prop :=
id a = id b /\ question a = question b /\ answer a = answer b
/\ collection_name a = collection_name b.

(** What a run may do to a row: nothing, or give it an embedding when the
    row is among the selected ones. *)
Definition kept_or_embedded (selected : FAQ -> bool) (a b : FAQ) : Prop :=
b = a \/ (selected a = true /\ exists v, b = with_embedding a v).

(** One more stored entry. *)
Definition faq_language : FAQ :=
{| id := 6; question := "change language";
   answer := "Open the language settings.";
   embedding := Some Scripted.v71; collection_name := Some "default" |}.

(** Collaborators whose embeddings API always answers, with the same
    vector. *)
Definition steady : Collaborators unit :=
{| settings := default_settings;
   chain_invoke := fun _ s => (Return "IT_RELATED", s);
   embeddings_create := fun _ s => (Return Scripted.v11, s);
   get_openai_answer := fun _ s => (Return "Try again later.", s);
   cosine_distance := Pgvector.cosine_distance;
   order_by_desc_first := Postgres.keep_earliest |}.

(** * Properties *)

(** ** Floats *)

Lemma SFcompare_antisym (a b : spec_float) :
  SFcompare b a = option_map CompOpp (SFcompare a b).
Proof.
  destruct a as [sa|sa| |sa ma ea], b as [sb|sb| |sb mb eb]; simpl;
    try reflexivity;
    try (destruct sa; reflexivity);
    try (destruct sb; reflexivity);
    try (destruct sa, sb; reflexivity).
  destruct sa, sb; simpl; try reflexivity;
    rewrite (Z.compare_antisym ea eb);
    destruct (ea ?= eb); simpl; try reflexivity;
    change (Pos.compare_cont Eq mb ma) with (Pos.compare_cont (CompOpp Eq) mb ma);
    rewrite <- (Pos.compare_cont_antisym ma mb Eq);
    destruct (Pos.compare_cont Eq ma mb); reflexivity.
Qed.

Lemma SFcompare_refl (a : spec_float) :
  PyFloat.is_nan a = false -> SFcompare a a = Some Eq.
Proof.
  destruct a as [s|s| |s m e]; simpl; intros Hn; try discriminate;
    try (destruct s; reflexivity).
  destruct s; rewrite Z.compare_refl;
    rewrite Pos.compare_cont_refl; reflexivity.
Qed.

Lemma ge_refl (t : PyFloat.float) :
  PyFloat.is_nan t = false -> PyFloat.ge t t = true.
Proof.
  intros Hn. unfold PyFloat.ge, SFleb. now rewrite SFcompare_refl.
Qed.

Lemma lt_not_ge (s t : PyFloat.float) :
  PyFloat.lt s t = true -> PyFloat.ge s t = false.
Proof.
  unfold PyFloat.lt, PyFloat.ge, SFltb, SFleb.
  rewrite (SFcompare_antisym s t).
  destruct (SFcompare s t) as [[]|]; simpl; congruence.
Qed.

Lemma float8_cmp_antisym (a b : PyFloat.float) :
  Postgres.float8_cmp b a = CompOpp (Postgres.float8_cmp a b).
Proof.
  unfold Postgres.float8_cmp.
  rewrite (SFcompare_antisym a b).
  destruct (SFcompare a b) as [c|] eqn:E; simpl; [reflexivity|].
  destruct a, b; simpl in *; try reflexivity; try discriminate.
Qed.

(** ** The retry policy *)

Import Constants Decorators.

(** With a floor not above the ceiling, tenacity's clamp is the one the
    specification writes. *)
Lemma wait_exponential_clamp (multiplier lo hi attempt_number : Z) :
  0 <= lo <= hi ->
  wait_exponential multiplier lo hi attempt_number
  = Z.min hi (Z.max lo (multiplier * 2 ^ (attempt_number - 1))).
Proof.
  intros Hb. unfold wait_exponential.
  generalize (multiplier * 2 ^ (attempt_number - 1)). intros r. lia.
Qed.

Lemma attempts_return {Remote A} (wait : Z -> Z) (fn : M Remote A)
  (k : Z) (left : nat) (w w' : World Remote) (v : A) :
  fn w = (Return v, w') -> attempts wait fn k left w = (Return v, w').
Proof.
  intros E. destruct left; simpl; now rewrite E.
Qed.

Lemma attempts_last {Remote A} (wait : Z -> Z) (fn : M Remote A)
  (k : Z) (w : World Remote) :
  attempts wait fn k 0 w = fn w.
Proof.
  simpl. destruct (fn w) as [[v|e] w']; reflexivity.
Qed.

(** C5.  The wrapper built by [retry_on_api_error] runs the wrapped call at
    most three times.  The first value obtained is returned and nothing more
    is tried; when the first and second attempts raise, the outcome of the
    third attempt is the outcome of the whole, so a third failure is raised
    again as it is.  Before the retry that follows attempt [k] the wrapper
    waits min(10, max(2, 1 * 2^(k-1))) seconds, which is 2 both times. *)
Theorem retry_on_api_error_policy :
  forall (Remote A : Type) (c : Call) (f : Remote -> Outcome A * Remote)
         (w : World Remote),
    let wait := fun attempt : Z =>
      Z.min RETRY_MAX_WAIT
        (Z.max RETRY_MIN_WAIT (RETRY_MULTIPLIER * 2 ^ (attempt - 1))) in
    let fn := remote_call c f in
    RETRY_MAX_ATTEMPTS = 3
    /\ retry_on_api_error fn w
       = match fn w with
         | (Return v, w1) => (Return v, w1)
         | (Raise _, w1) =>
             match fn (record (Sleep (wait 1)) w1) with
             | (Return v, w2) => (Return v, w2)
             | (Raise _, w2) => fn (record (Sleep (wait 2)) w2)
             end
         end
    /\ ((exists v, fst (retry_on_api_error fn w) = Return v
                   /\ calls (snd (retry_on_api_error fn w)) = calls w ++ [c])
        \/ (exists v, fst (retry_on_api_error fn w) = Return v
                      /\ calls (snd (retry_on_api_error fn w))
                         = calls w ++ [c; Sleep 2; c])
        \/ calls (snd (retry_on_api_error fn w))
           = calls w ++ [c; Sleep 2; c; Sleep 2; c]).
Proof.
  intros Remote A c f w wait fn.
  split; [reflexivity|].
  assert (E : retry_on_api_error fn w
              = match fn w with
                | (Return v, w1) => (Return v, w1)
                | (Raise _, w1) =>
                    match fn (record (Sleep (wait 1)) w1) with
                    | (Return v, w2) => (Return v, w2)
                    | (Raise _, w2) => fn (record (Sleep (wait 2)) w2)
                    end
                end).
  { unfold retry_on_api_error, retry.
    change (Z.to_nat (RETRY_MAX_ATTEMPTS - 1)) with 2%nat.
    cbn [attempts].
    destruct (fn w) as [[v|e] w1]; [reflexivity|].
    change (wait_exponential RETRY_MULTIPLIER RETRY_MIN_WAIT RETRY_MAX_WAIT 1)
      with (wait 1).
    destruct (fn (record (Sleep (wait 1)) w1)) as [[v|e'] w2]; [reflexivity|].
    change (wait_exponential RETRY_MULTIPLIER RETRY_MIN_WAIT RETRY_MAX_WAIT
              (1 + 1)) with (wait 2).
    destruct (fn (record (Sleep (wait 2)) w2)) as [[v|e''] w3]; reflexivity. }
  split; [exact E|].
  rewrite E. clear E.
  change (wait 1) with 2. change (wait 2) with 2.
  unfold fn, remote_call, record. cbn [remote calls].
  destruct (f (remote w)) as [[v|e] s1]; cbn [fst snd calls remote].
  - left. exists v. split; reflexivity.
  - destruct (f s1) as [[v|e'] s2]; cbn [fst snd calls remote].
    + right; left. exists v. split; [reflexivity|].
      rewrite <- !app_assoc. reflexivity.
    + right; right.
      destruct (f s2) as [r s3]; cbn [fst snd calls remote].
      rewrite <- !app_assoc. reflexivity.
Qed.

(** ** Strings *)

Import PyStr.

Lemma string_eqb_spec (s1 s2 : string) :
  reflect (s1 = s2) (String.eqb s1 s2).
Proof.
  revert s2. induction s1 as [|c1 s1 IH]; intros [|c2 s2];
    cbn [String.eqb]; try (constructor; congruence).
  destruct (Z.eqb_spec c1 c2) as [->|N]; cbn [andb].
  - destruct (IH s2) as [->|N]; constructor; congruence.
  - constructor. congruence.
Qed.

Lemma string_eqb_eq (s1 s2 : string) : String.eqb s1 s2 = true <-> s1 = s2.
Proof.
  destruct (string_eqb_spec s1 s2); split; congruence.
Qed.

Lemma string_eqb_refl (s : string) : String.eqb s s = true.
Proof. now apply string_eqb_eq. Qed.

Lemma string_eqb_neq (s1 s2 : string) : String.eqb s1 s2 = false <-> s1 <> s2.
Proof.
  destruct (string_eqb_spec s1 s2); split; congruence.
Qed.

Lemma append_nil_r (s : string) : (s ++ "")%string = s.
Proof.
  induction s as [|c s IH]; cbn [String.append]; [reflexivity | now rewrite IH].
Qed.

Lemma append_assoc (s1 s2 s3 : string) :
  ((s1 ++ s2) ++ s3)%string = (s1 ++ s2 ++ s3)%string.
Proof.
  induction s1 as [|c s1 IH]; cbn [String.append];
    [reflexivity | now rewrite IH].
Qed.

(** *** Whitespace and the uppercase tables *)

Lemma clear_not_space (first last c : Z) :
  clear first last = true -> first <= c <= last -> is_space c = false.
Proof.
  unfold clear, is_space. intros H Hc.
  induction whitespace as [|[a b] l IH]; [reflexivity|].
  cbn [forallb existsb] in *. apply andb_true_iff in H. destruct H as [H1 H2].
  rewrite (IH H2), orb_false_r. unfold within. cbn [fst snd] in *.
  apply orb_true_iff in H1. rewrite !Z.ltb_lt in H1.
  apply andb_false_iff. rewrite !Z.leb_gt. lia.
Qed.

Lemma special_in (c : Z) (table : list (Z * list Z)) (expansion : list Z) :
  special c table = Some expansion -> In (c, expansion) table.
Proof.
  induction table as [|[c' e] table IH]; cbn [special]; [discriminate|].
  destruct (Z.eqb_spec c' c) as [->|_].
  - intros H. injection H as <-. now left.
  - intros H. right. now apply IH.
Qed.

Lemma simple_delta_in (c : Z) (table : list (Z * Z * Z * Z)) (delta : Z) :
  simple_delta c table = Some delta ->
  exists first last step,
    In (first, last, step, delta) table /\ first <= c <= last.
Proof.
  induction table as [|[[[f l] st] d] table IH]; cbn [simple_delta];
    [discriminate|].
  destruct ((f <=? c) && (c <=? l) && ((c - f) mod st =? 0)) eqn:E.
  - intros H. injection H as <-. exists f, l, st. split; [now left|].
    apply andb_true_iff in E. destruct E as [E _].
    apply andb_true_iff in E. rewrite !Z.leb_le in E. exact E.
  - intros H. destruct (IH H) as (f' & l' & st' & Hin & Hc).
    exists f', l', st'. split; [now right | exact Hc].
Qed.

(** No code point with an uppercase mapping is whitespace, and no mapping
    yields whitespace: checked on the tables. *)
Lemma upper_simple_clear :
  forallb (fun '(first, last, _, delta) =>
             clear first last && clear (first + delta) (last + delta))
    upper_simple = true.
Proof. vm_compute. reflexivity. Qed.

Lemma upper_special_clear :
  forallb (fun '(c, expansion) =>
             negb (is_space c)
             && negb (is_space (hd 32 expansion))
             && ends_nonspace (String.of_list expansion))
    upper_special = true.
Proof. vm_compute. reflexivity. Qed.

(** Uppercasing leaves a whitespace character as it is. *)
Lemma upper_char_space (c : Z) :
  is_space c = true -> upper_char c = String c EmptyString.
Proof.
  intros Hc. unfold upper_char.
  destruct (special c upper_special) as [e|] eqn:Es.
  - apply special_in in Es.
    pose proof (proj1 (forallb_forall _ _) upper_special_clear _ Es) as H.
    cbn beta iota in H. rewrite Hc in H. discriminate H.
  - destruct (simple_delta c upper_simple) as [d|] eqn:Ed; [|reflexivity].
    apply simple_delta_in in Ed. destruct Ed as (f & l & st & Hin & Hr).
    pose proof (proj1 (forallb_forall _ _) upper_simple_clear _ Hin) as H.
    cbn beta iota in H. apply andb_true_iff in H. destruct H as [H _].
    rewrite (clear_not_space f l c H Hr) in Hc. discriminate Hc.
Qed.

(** The uppercase of a character that is no whitespace neither starts nor
    ends with whitespace. *)
Lemma upper_char_nonspace (c : Z) :
  is_space c = false ->
  exists d t,
    upper_char c = String d t
    /\ is_space d = false
    /\ ends_nonspace (String d t) = true.
Proof.
  intros Hc. unfold upper_char.
  destruct (special c upper_special) as [e|] eqn:Es.
  - apply special_in in Es.
    pose proof (proj1 (forallb_forall _ _) upper_special_clear _ Es) as H.
    cbn beta iota in H.
    apply andb_true_iff in H. destruct H as [H He].
    apply andb_true_iff in H. destruct H as [_ Hh].
    destruct e as [|d e]; [discriminate He|].
    exists d, (String.of_list e). cbn [hd] in Hh.
    split; [reflexivity|]. split; [|exact He].
    now destruct (is_space d).
  - destruct (simple_delta c upper_simple) as [d|] eqn:Ed.
    + apply simple_delta_in in Ed. destruct Ed as (f & l & st & Hin & Hr).
      pose proof (proj1 (forallb_forall _ _) upper_simple_clear _ Hin) as H.
      cbn beta iota in H. apply andb_true_iff in H. destruct H as [_ H].
      assert (Hd : is_space (c + d) = false)
        by (apply (clear_not_space (f + d) (l + d)); [exact H | lia]).
      exists (c + d), EmptyString. cbn [ends_nonspace]. rewrite Hd.
      repeat split.
    + exists c, EmptyString. cbn [ends_nonspace]. rewrite Hc. repeat split.
Qed.

Lemma lstrip_nonspace (d : Z) (t : string) :
  is_space d = false -> lstrip (String d t) = String d t.
Proof. intros H. cbn [lstrip]. now rewrite H. Qed.

Lemma rstrip_append (u v : string) :
  rstrip (u ++ v)
  = match rstrip v with
    | EmptyString => rstrip u
    | String _ _ => (u ++ rstrip v)%string
    end.
Proof.
  induction u as [|c u IH]; cbn [String.append rstrip].
  - now destruct (rstrip v).
  - rewrite IH. destruct (rstrip v) as [|d t]; [reflexivity|].
    now destruct (u ++ String d t)%string eqn:E;
      [destruct u; discriminate E|].
Qed.

Lemma rstrip_ends (s : string) : ends_nonspace s = true -> rstrip s = s.
Proof.
  induction s as [|c s IH]; [discriminate|].
  cbn [ends_nonspace rstrip]. destruct s as [|d t].
  - cbn [rstrip]. now destruct (is_space c).
  - intros H. now rewrite (IH H).
Qed.

Lemma upper_lstrip (s : string) : upper (lstrip s) = lstrip (upper s).
Proof.
  induction s as [|c s IH]; [reflexivity|].
  cbn [lstrip upper]. destruct (is_space c) eqn:Hc.
  - rewrite (upper_char_space c Hc). cbn [String.append lstrip].
    now rewrite Hc.
  - destruct (upper_char_nonspace c Hc) as (d & t & E & Hd & _).
    cbn [upper]. rewrite E. cbn [String.append].
    now rewrite lstrip_nonspace.
Qed.

Lemma upper_rstrip (s : string) : upper (rstrip s) = rstrip (upper s).
Proof.
  induction s as [|c s IH]; [reflexivity|].
  cbn [rstrip upper]. rewrite rstrip_append, <- IH.
  destruct (rstrip s) as [|d t] eqn:Er.
  - cbn [upper]. destruct (is_space c) eqn:Hc.
    + rewrite (upper_char_space c Hc). cbn [rstrip]. now rewrite Hc.
    + destruct (upper_char_nonspace c Hc) as (d & t & E & _ & He).
      cbn [upper]. rewrite append_nil_r, E. now rewrite rstrip_ends.
  - cbn [upper].
    destruct (upper_char d ++ upper t)%string as [|x y] eqn:E; [|reflexivity].
    exfalso. destruct (is_space d) eqn:Hd.
    + rewrite (upper_char_space d Hd) in E. discriminate E.
    + destruct (upper_char_nonspace d Hd) as (d' & t' & E' & _).
      rewrite E' in E. discriminate E.
Qed.

Lemma upper_strip (s : string) : upper (strip s) = strip (upper s).
Proof.
  unfold strip. now rewrite upper_rstrip, upper_lstrip.
Qed.

(** A marker that starts with a character that is no whitespace is found in
    a text exactly when it is found in the text left-stripped. *)
Lemma contains_lstrip (c : Z) (n s : string) :
  is_space c = false ->
  contains (String c n) (lstrip s) = contains (String c n) s.
Proof.
  intros Hc. induction s as [|a s IH]; [reflexivity|].
  cbn [lstrip]. destruct (is_space a) eqn:Ha; [|reflexivity].
  rewrite IH. cbn [contains String.prefix].
  destruct (Z.eqb_spec c a) as [->|_]; [congruence | reflexivity].
Qed.

Lemma prefix_empty (n : string) :
  String.prefix n EmptyString = match n with EmptyString => true | _ => false end.
Proof. destruct n; reflexivity. Qed.

Lemma prefix_rstrip (n s : string) :
  ends_nonspace n = true ->
  String.prefix n (rstrip s) = String.prefix n s.
Proof.
  revert n. induction s as [|a s IH]; intros n Hn; [reflexivity|].
  destruct n as [|c n]; [discriminate|].
  assert (Hrec : String.prefix n (rstrip s) = String.prefix n s).
  { destruct n as [|c' n']; [destruct (rstrip s), s; reflexivity|].
    apply IH. exact Hn. }
  cbn [rstrip].
  destruct (rstrip s) as [|d t] eqn:Er.
  - destruct (is_space a) eqn:Ha.
    + cbn [String.prefix].
      destruct (Z.eqb_spec c a) as [->|_]; [|reflexivity].
      rewrite <- Hrec.
      destruct n as [|c' n']; [|reflexivity].
      simpl in Hn. rewrite Ha in Hn. discriminate.
    + cbn [String.prefix].
      destruct (Z.eqb_spec c a) as [_|_]; [exact Hrec | reflexivity].
  - cbn [String.prefix].
    destruct (Z.eqb_spec c a) as [_|_]; [exact Hrec | reflexivity].
Qed.

Lemma contains_empty (n : string) :
  contains n EmptyString = match n with EmptyString => true | _ => false end.
Proof. destruct n; reflexivity. Qed.

(** A marker that ends with a character that is no whitespace is found in a
    text exactly when it is found in the text right-stripped. *)
Lemma contains_rstrip (n s : string) :
  ends_nonspace n = true ->
  contains n (rstrip s) = contains n s.
Proof.
  intros Hn. induction s as [|a s IH]; [reflexivity|].
  change (contains n (String a s))
    with (String.prefix n (String a s) || contains n s).
  rewrite <- (prefix_rstrip n (String a s) Hn), <- IH.
  cbn [rstrip].
  destruct (rstrip s) as [|d t] eqn:Er.
  - destruct (is_space a).
    + destruct n; [discriminate|]. reflexivity.
    + cbn [contains]. reflexivity.
  - reflexivity.
Qed.

(** Stripping a text does not change whether it holds a marker that neither
    starts nor ends with whitespace. *)
Lemma contains_strip (c : Z) (n s : string) :
  is_space c = false -> ends_nonspace (String c n) = true ->
  contains (String c n) (strip s) = contains (String c n) s.
Proof.
  intros Hc Hn. unfold strip.
  now rewrite contains_rstrip, contains_lstrip.
Qed.

Lemma contains_upper_strip (c : Z) (n s : string) :
  is_space c = false -> ends_nonspace (String c n) = true ->
  contains (String c n) (upper (strip s)) = contains (String c n) (upper s).
Proof.
  intros Hc Hn. rewrite upper_strip. now apply contains_strip.
Qed.

(** ** The topic classifier *)

Section Classifier.

Context {Remote : Type} {C : Collaborators Remote}.

(** What [classify_question] answers, whatever the collaborator does. *)
Lemma classify_question_eq (q : string) (w : World Remote) :
  classify_question q w
  = (Return
       match fst (chain_invoke q (remote w)) with
       | Return content =>
           contains "IT_RELATED" (upper (strip content))
           || contains "YES" (upper (strip content))
       | Raise _ => true
       end,
     {| remote := snd (chain_invoke q (remote w));
        calls := calls w ++ [ClassifierCall q] |}).
Proof.
  unfold classify_question, try_except, bind, remote_call, ret.
  destruct (chain_invoke q (remote w)) as [[content|e] s']; reflexivity.
Qed.

(** The classifier is the only collaborator [classify_question] calls. *)
Lemma classify_question_calls (q : string) (w w' : World Remote) (b : bool) :
  classify_question q w = (Return b, w') ->
  calls w' = calls w ++ [ClassifierCall q].
Proof.
  rewrite classify_question_eq. intros E. inversion E. reflexivity.
Qed.

Lemma route_question_eq (q : string) (w : World Remote) :
  route_question q w
  = match classify_question q w with
    | (Return true, w') => (Return ("it_related", true), w')
    | (Return false, w') => (Return ("compliance", false), w')
    | (Raise e, w') => (Raise e, w')
    end.
Proof.
  unfold route_question, bind.
  destruct (classify_question q w) as [[[]|e] w']; reflexivity.
Qed.

(** C4.  When the call to the classification chain raises, whatever the
    exception, [classify_question] returns [True] (in domain) and
    [route_question] sends the question on to the FAQ search: the failure
    does not leave the classification stage. *)
Theorem classifier_fails_open (q : string) (w : World Remote) (e : Exn)
  (s' : Remote) :
  chain_invoke q (remote w) = (Raise e, s') ->
  classify_question q w
  = (Return true,
     {| remote := s'; calls := calls w ++ [ClassifierCall q] |})
  /\ route_question q w
     = (Return ("it_related", true),
        {| remote := s'; calls := calls w ++ [ClassifierCall q] |}).
Proof.
  intros E.
  assert (Hc : classify_question q w
               = (Return true,
                  {| remote := s'; calls := calls w ++ [ClassifierCall q] |})).
  { rewrite classify_question_eq, E. reflexivity. }
  split; [exact Hc|].
  rewrite route_question_eq, Hc. reflexivity.
Qed.

(** C6, as the code has it.  The completion text is stripped and
    uppercased, both as Python does over all of Unicode, and the question
    is in domain exactly when the result holds one of the two markers
    [IT_RELATED] and [YES]; stripping does not change that, so the test is
    one on the uppercased text.  Every other text gives the complementary
    class. *)
Theorem classify_question_markers (q : string) (w : World Remote)
  (content : string) (s' : Remote) :
  chain_invoke q (remote w) = (Return content, s') ->
  classify_question q w
  = (Return (contains "IT_RELATED" (upper content)
             || contains "YES" (upper content)),
     {| remote := s'; calls := calls w ++ [ClassifierCall q] |}).
Proof.
  intros E. rewrite classify_question_eq, E. cbn [fst snd].
  rewrite !contains_upper_strip by reflexivity. reflexivity.
Qed.

End Classifier.

Lemma classifier_fails_open_witness :
  let w := Scripted.start
             {| Scripted.classifier_reply := Raise (Exception "Request timed out.");
                Scripted.embeddings_replies := [];
                Scripted.completion_reply := Return "" |} in
  classify_question (C := Scripted.earliest) "how do I reset my password" w
  = (Return true,
     {| remote := remote w;
        calls := [ClassifierCall "how do I reset my password"] |})
  /\ route_question (C := Scripted.earliest) "how do I reset my password" w
     = (Return ("it_related", true),
        {| remote := remote w;
           calls := [ClassifierCall "how do I reset my password"] |}).
Proof.
  intros w.
  apply (classifier_fails_open (C := Scripted.earliest)
           "how do I reset my password" w (Exception "Request timed out.")).
  reflexivity.
Defined.

Lemma classify_question_markers_witness :
  let w := Scripted.start
             {| Scripted.classifier_reply := Return " off_topic ";
                Scripted.embeddings_replies := [];
                Scripted.completion_reply := Return "" |} in
  classify_question (C := Scripted.earliest) "what's the weather today" w
  = (Return false,
     {| remote := remote w;
        calls := [ClassifierCall "what's the weather today"] |}).
Proof.
  intros w.
  apply (classify_question_markers (C := Scripted.earliest)
           "what's the weather today" w " off_topic ").
  reflexivity.
Defined.

(** C6, as stated, fails: the reply [yes] does not hold the marker
    [IT_RELATED] the prompt asks for, and the question is in domain all the
    same. *)
Lemma classify_question_yes_counterexample :
  contains "IT_RELATED" (upper "yes") = false
  /\ fst (classify_question (C := Scripted.earliest) "what's the weather today"
            (Scripted.start
               {| Scripted.classifier_reply := Return "yes";
                  Scripted.embeddings_replies := [];
                  Scripted.completion_reply := Return "" |}))
     = Return true.
Proof. split; reflexivity. Qed.

(** Uppercasing is Python's: the reply [yeß] becomes [YESS], which holds
    the marker [YES], and the question is in domain. *)
Example classify_question_sharp_s :
  upper "yeß" = "YESS"
  /\ fst (classify_question (C := Scripted.earliest) "what's the weather today"
            (Scripted.start
               {| Scripted.classifier_reply := Return "yeß";
                  Scripted.embeddings_replies := [];
                  Scripted.completion_reply := Return "" |}))
     = Return true.
Proof. split; vm_compute; reflexivity. Qed.

(** ** The similarity matcher and the threshold gate *)

Section Matcher.

Context {Remote : Type} {C : Collaborators Remote}.

Lemma search_similar_faq_eq (db : Session) (q : string) (name : option string)
  (w w1 : World Remote) (qe : Vector) :
  generate_embedding q w = (Return qe, w1) ->
  search_similar_faq db q name w
  = (Return
       match order_by_desc_first (compared_rows db qe name) with
       | None => (None, S754_zero false)
       | Some (best_faq, similarity) => (Some best_faq, similarity)
       end,
     record (DatabaseQuery name) w1).
Proof.
  intros E. unfold search_similar_faq, bind, remote_call, ret, record.
  rewrite E.
  destruct (order_by_desc_first (compared_rows db qe name)) as [[f s]|];
    reflexivity.
Qed.

Lemma search_similar_faq_raise (db : Session) (q : string)
  (name : option string) (w w1 : World Remote) (e : Exn) :
  generate_embedding q w = (Raise e, w1) ->
  search_similar_faq db q name w = (Raise e, w1).
Proof.
  intros E. unfold search_similar_faq, bind. now rewrite E.
Qed.

Lemma find_best_match_eq (db : Session) (q : string) (threshold : PyFloat.float)
  (name : option string) (w w' : World Remote) (faq : option FAQ)
  (s : PyFloat.float) :
  search_similar_faq db q name w = (Return (faq, s), w') ->
  find_best_match db q threshold name w
  = (Return (faq, s, present faq && PyFloat.ge s threshold), w').
Proof.
  intros E. unfold find_best_match, bind, ret. rewrite E.
  destruct (present faq && PyFloat.ge s threshold); reflexivity.
Qed.

(** Rows selected for comparison are exactly the entries with an embedding,
    each with its similarity to the query. *)
Lemma in_select_rows (qe : Vector) (rows : list FAQ) (r : FAQ * PyFloat.float) :
  In r (select_rows qe rows)
  <-> exists v, In (fst r) rows /\ embedding (fst r) = Some v
                /\ snd r = PyFloat.sub (PyFloat.of_Z 1) (cosine_distance v qe).
Proof.
  induction rows as [|f rows IH]; cbn [select_rows In].
  - split; [tauto | intros (v & [] & _)].
  - unfold similarity_row. destruct (embedding f) as [v|] eqn:Ef.
    + cbn [In]. rewrite IH. split.
      * intros [<- | (v' & Hin & He & Hs)].
        -- exists v. cbn [fst snd]. auto.
        -- exists v'. auto.
      * intros (v' & [Hf | Hin] & He & Hs).
        -- left. destruct r as [f' s']. cbn [fst snd] in *. subst f'.
           rewrite Ef in He. inversion He. subst. reflexivity.
        -- right. exists v'. auto.
    + rewrite IH. split.
      * intros (v' & Hin & He & Hs). exists v'. auto.
      * intros (v' & [Hf | Hin] & He & Hs).
        -- subst f. rewrite Ef in He. discriminate.
        -- exists v'. auto.
Qed.

End Matcher.

Section MatcherClaims.

Context {Remote : Type} {C : Collaborators Remote}.

Import Postgres.

Lemma in_filter_collection (name : option string)
  (rows : list (FAQ * PyFloat.float)) (r : FAQ * PyFloat.float) :
  In r (filter_collection name rows)
  <-> In r rows
      /\ (forall n, name = Some n -> truthy n = true ->
                    collection_name (fst r) = Some n).
Proof.
  unfold filter_collection.
  destruct name as [n|].
  - destruct (truthy n) eqn:Hn.
    + rewrite filter_In. unfold in_collection. split.
      * intros [Hin Hc]. split; [exact Hin|].
        intros n' E _. inversion E. subst n'.
        destruct (collection_name (fst r)) as [c|]; [|discriminate].
        apply string_eqb_eq in Hc. now subst.
      * intros [Hin Hc]. split; [exact Hin|].
        rewrite (Hc n eq_refl Hn). apply string_eqb_refl.
    + split; [|tauto]. intros Hin. split; [exact Hin|].
      intros n' E Hn'. inversion E. subst. congruence.
  - split; [|tauto]. intros Hin. split; [exact Hin|]. discriminate.
Qed.

(** C8, as the code has it.  The rows the query compares are exactly the
    stored entries whose embedding is present and, when a collection filter
    is given, whose collection matches; each is given the similarity
    [1 - cosine_distance] of its embedding to the query.  The norm of the
    stored vector plays no part: no entry is left out for it. *)
Theorem compared_rows_whatever_norm (db : Session) (qe : Vector)
  (name : option string) (faq : FAQ) (s : PyFloat.float) :
  In (faq, s) (compared_rows db qe name)
  <-> In faq (faqs db)
      /\ (exists v, embedding faq = Some v
                    /\ s = PyFloat.sub (PyFloat.of_Z 1) (cosine_distance v qe))
      /\ (forall n, name = Some n -> truthy n = true ->
                    collection_name faq = Some n).
Proof.
  unfold compared_rows. rewrite in_filter_collection, in_select_rows.
  cbn [fst snd]. split.
  - intros [(v & Hin & He & Hs) Hc]. repeat split; eauto.
  - intros (Hin & (v & He & Hs) & Hc). split; eauto.
Qed.

Lemma float8_ge_antisym (a b : PyFloat.float) :
  float8_ge a b = true -> float8_ge b a = true -> float8_eq a b = true.
Proof.
  unfold float8_ge, float8_eq. rewrite (float8_cmp_antisym a b).
  destruct (float8_cmp a b); simpl; congruence.
Qed.

Lemma float8_ge_refl (a : PyFloat.float) : float8_ge a a = true.
Proof.
  unfold float8_ge, float8_cmp.
  destruct a as [s|s| |s m e]; cbn [SFcompare PyFloat.is_nan];
    try reflexivity; try (destruct s; reflexivity).
  destruct s; rewrite Z.compare_refl, Pos.compare_cont_refl; reflexivity.
Qed.

(** The head of an ordering of the rows by similarity, descending, is one
    of the rows and no row has a higher similarity. *)
Lemma head_of_ordered (rows sorted : list (FAQ * PyFloat.float))
  (r : FAQ * PyFloat.float) :
  ordered_by_desc rows sorted -> hd_error sorted = Some r ->
  In r rows
  /\ forall r', In r' rows -> float8_ge (snd r) (snd r') = true.
Proof.
  intros [Hperm Hsorted] Hhd.
  destruct sorted as [|r0 tl]; [discriminate|].
  injection Hhd as ->.
  split.
  - apply (Permutation_in _ (Permutation_sym Hperm)). now left.
  - intros r' Hin. apply (Permutation_in _ Hperm) in Hin.
    destruct Hin as [<- | Hin]; [apply float8_ge_refl|].
    apply StronglySorted_inv in Hsorted. destruct Hsorted as [_ Hall].
    exact (proj1 (Forall_forall _ _) Hall r' Hin).
Qed.

Lemma ordered_nil (rows sorted : list (FAQ * PyFloat.float)) :
  ordered_by_desc rows sorted -> hd_error sorted = None -> rows = [].
Proof.
  intros [Hperm _] Hhd. destruct sorted; [|discriminate].
  now apply Permutation_sym, Permutation_nil in Hperm.
Qed.

(** C7, as the code has it.  The code asks the engine for the compared rows
    ordered by similarity, descending, and takes the first.  Whatever
    ordering of that kind the engine builds, the matcher returns an entry no
    compared row exceeds in similarity, together with that similarity, or no
    entry and 0.0 when no row is compared.  Every such ordering starts with
    the same score; it starts with the same entry when no other row reaches
    that score.  Which of several rows of equal highest similarity comes
    first is the engine's choice. *)
Theorem best_match_is_maximal (db : Session) (q : string)
  (name : option string) (w w1 : World Remote) (qe : Vector)
  (sorted : list (FAQ * PyFloat.float)) :
  generate_embedding q w = (Return qe, w1) ->
  ordered_by_desc (compared_rows db qe name) sorted ->
  order_by_desc_first (compared_rows db qe name) = hd_error sorted ->
  exists (cand : option FAQ) (s : PyFloat.float),
    search_similar_faq db q name w
    = (Return (cand, s), record (DatabaseQuery name) w1)
    /\ match cand with
       | None => compared_rows db qe name = [] /\ s = S754_zero false
       | Some faq =>
           In (faq, s) (compared_rows db qe name)
           /\ (forall r, In r (compared_rows db qe name) ->
                         float8_ge s (snd r) = true)
           /\ (forall sorted' r',
                  ordered_by_desc (compared_rows db qe name) sorted' ->
                  hd_error sorted' = Some r' ->
                  float8_eq (snd r') s = true
                  /\ ((forall r, In r (compared_rows db qe name) ->
                                 float8_ge (snd r) s = true -> r = (faq, s)) ->
                      r' = (faq, s)))
       end.
Proof.
  intros E Hord Hfirst.
  rewrite (search_similar_faq_eq db q name w w1 qe E), Hfirst.
  destruct (hd_error sorted) as [[f s]|] eqn:Hhd.
  - exists (Some f), s. split; [reflexivity|].
    destruct (head_of_ordered _ _ _ Hord Hhd) as [Hin Hmax].
    cbn [snd] in Hmax.
    split; [exact Hin|]. split; [exact Hmax|].
    intros sorted' r' Hord' Hhd'.
    destruct (head_of_ordered _ _ _ Hord' Hhd') as [Hin' Hmax'].
    split.
    + apply float8_ge_antisym.
      * apply (Hmax' (f, s) Hin).
      * apply (Hmax r' Hin').
    + intros Huniq. apply (Huniq r' Hin'). apply (Hmax' (f, s) Hin).
  - exists None, (S754_zero false). split; [reflexivity|].
    split; [exact (ordered_nil _ _ Hord Hhd) | reflexivity].
Qed.

End MatcherClaims.

(** *** The two scanning engines answer the query as ordered *)

Lemma float8_ge_total (a b : PyFloat.float) :
  Postgres.float8_ge a b = true \/ Postgres.float8_ge b a = true.
Proof.
  unfold Postgres.float8_ge. rewrite (float8_cmp_antisym a b).
  destruct (Postgres.float8_cmp a b); cbn [CompOpp]; tauto.
Qed.

Lemma float8_ge_trans (a b c : PyFloat.float) :
  Postgres.float8_ge a b = true -> Postgres.float8_ge b c = true ->
  Postgres.float8_ge a c = true.
Proof.
  unfold Postgres.float8_ge, Postgres.float8_cmp.
  destruct a as [sa|sa| |sa ma ea], b as [sb|sb| |sb mb eb],
           c as [sc|sc| |sc mc ec];
    cbn [SFcompare PyFloat.is_nan];
    try (intros; discriminate);
    try reflexivity;
    repeat match goal with s : bool |- _ => destruct s end;
    try (intros; discriminate);
    try reflexivity;
    change (Pos.compare_cont Eq) with Pos.compare;
    destruct (Z.compare_spec ea eb); destruct (Z.compare_spec eb ec);
    destruct (Z.compare_spec ea ec);
    destruct (Pos.compare_spec ma mb); destruct (Pos.compare_spec mb mc);
    destruct (Pos.compare_spec ma mc);
    cbn [CompOpp]; intros; try reflexivity; try discriminate; lia.
Qed.

Lemma keep_earliest_none (rows : list (FAQ * PyFloat.float)) :
  Postgres.keep_earliest rows = None -> rows = [].
Proof.
  destruct rows as [|a rows]; [reflexivity|].
  cbn [Postgres.keep_earliest].
  destruct (Postgres.keep_earliest rows) as [b|]; [|discriminate].
  destruct (Postgres.float8_ge (snd a) (snd b)); discriminate.
Qed.

Lemma keep_latest_none (rows : list (FAQ * PyFloat.float)) :
  Postgres.keep_latest rows = None -> rows = [].
Proof.
  destruct rows as [|a rows]; [reflexivity|].
  cbn [Postgres.keep_latest].
  destruct (Postgres.keep_latest rows) as [b|]; [|discriminate].
  destruct (Postgres.float8_ge (snd b) (snd a)); discriminate.
Qed.

Lemma keep_earliest_max (rows : list (FAQ * PyFloat.float))
  (r : FAQ * PyFloat.float) :
  Postgres.keep_earliest rows = Some r ->
  In r rows
  /\ forall r', In r' rows -> Postgres.float8_ge (snd r) (snd r') = true.
Proof.
  revert r. induction rows as [|a rows IH]; intros r H; [discriminate|].
  cbn [Postgres.keep_earliest] in H.
  destruct (Postgres.keep_earliest rows) as [b|] eqn:Eb.
  - destruct (IH b eq_refl) as [Hin Hmax].
    destruct (Postgres.float8_ge (snd a) (snd b)) eqn:E;
      injection H as <-.
    + split; [now left|]. intros r' [E' | Hr'].
      * subst r'. apply float8_ge_refl.
      * exact (float8_ge_trans _ _ _ E (Hmax r' Hr')).
    + split; [now right|]. intros r' [E' | Hr']; [|exact (Hmax r' Hr')].
      subst r'. destruct (float8_ge_total (snd b) (snd a)); congruence.
  - injection H as <-. rewrite (keep_earliest_none rows Eb).
    split; [now left|]. intros r' [<- | []]. apply float8_ge_refl.
Qed.

Lemma keep_latest_max (rows : list (FAQ * PyFloat.float))
  (r : FAQ * PyFloat.float) :
  Postgres.keep_latest rows = Some r ->
  In r rows
  /\ forall r', In r' rows -> Postgres.float8_ge (snd r) (snd r') = true.
Proof.
  revert r. induction rows as [|a rows IH]; intros r H; [discriminate|].
  cbn [Postgres.keep_latest] in H.
  destruct (Postgres.keep_latest rows) as [b|] eqn:Eb.
  - destruct (IH b eq_refl) as [Hin Hmax].
    destruct (Postgres.float8_ge (snd b) (snd a)) eqn:E;
      injection H as <-.
    + split; [now right|]. intros r' [E' | Hr']; [|exact (Hmax r' Hr')].
      subst r'. exact E.
    + assert (Hab : Postgres.float8_ge (snd a) (snd b) = true)
        by (destruct (float8_ge_total (snd a) (snd b)); congruence).
      split; [now left|]. intros r' [E' | Hr'].
      * subst r'. apply float8_ge_refl.
      * exact (float8_ge_trans _ _ _ Hab (Hmax r' Hr')).
  - injection H as <-. rewrite (keep_latest_none rows Eb).
    split; [now left|]. intros r' [<- | []]. apply float8_ge_refl.
Qed.

Lemma insert_ordered (a : FAQ * PyFloat.float)
  (t : list (FAQ * PyFloat.float)) :
  StronglySorted
    (fun r r' => Postgres.float8_ge (snd r) (snd r') = true) t ->
  exists t',
    Permutation (a :: t) t'
    /\ StronglySorted
         (fun r r' => Postgres.float8_ge (snd r) (snd r') = true) t'.
Proof.
  induction t as [|b t IH]; intros Hs.
  - exists [a]. split; [apply Permutation_refl|].
    repeat constructor.
  - apply StronglySorted_inv in Hs. destruct Hs as [Hs Hb].
    destruct (float8_ge_total (snd a) (snd b)) as [Hab | Hba].
    + exists (a :: b :: t). split; [apply Permutation_refl|].
      constructor; [constructor; assumption|].
      constructor; [exact Hab|].
      eapply Forall_impl; [|exact Hb].
      intros x Hx. exact (float8_ge_trans _ _ _ Hab Hx).
    + destruct (IH Hs) as (t' & Hp & Hs').
      exists (b :: t'). split.
      * eapply perm_trans; [apply perm_swap|]. now constructor.
      * constructor; [exact Hs'|].
        apply Forall_forall. intros x Hx.
        apply (Permutation_in _ (Permutation_sym Hp)) in Hx.
        destruct Hx as [<- | Hx]; [exact Hba|].
        exact (proj1 (Forall_forall _ _) Hb x Hx).
Qed.

Lemma some_ordering (rows : list (FAQ * PyFloat.float)) :
  exists sorted, Postgres.ordered_by_desc rows sorted.
Proof.
  induction rows as [|a rows (t & Hp & Hs)].
  - exists []. split; constructor.
  - destruct (insert_ordered a t Hs) as (t' & Hp' & Hs').
    exists t'. split; [|exact Hs'].
    eapply perm_trans; [|exact Hp']. now constructor.
Qed.

Lemma ordering_from_max (rows : list (FAQ * PyFloat.float))
  (r : FAQ * PyFloat.float) :
  In r rows ->
  (forall r', In r' rows -> Postgres.float8_ge (snd r) (snd r') = true) ->
  exists sorted,
    Postgres.ordered_by_desc rows sorted /\ hd_error sorted = Some r.
Proof.
  intros Hin Hmax.
  destruct (in_split _ _ Hin) as (l1 & l2 & ->).
  destruct (some_ordering (l1 ++ l2)) as (t & Hp & Hs).
  exists (r :: t). split; [|reflexivity]. split.
  - eapply perm_trans; [apply Permutation_sym, Permutation_middle|].
    now constructor.
  - constructor; [exact Hs|].
    apply Forall_forall. intros x Hx.
    apply (Permutation_in _ (Permutation_sym Hp)) in Hx.
    apply Hmax. apply in_app_iff in Hx. apply in_app_iff.
    destruct Hx; [now left | right; now right].
Qed.

(** Each of the two engines answers, on any rows, with the head of an
    ordering of the rows by similarity, descending. *)
Lemma scans_answer_in_order (rows : list (FAQ * PyFloat.float)) :
  (exists sorted,
     Postgres.ordered_by_desc rows sorted
     /\ Postgres.keep_earliest rows = hd_error sorted)
  /\ (exists sorted,
        Postgres.ordered_by_desc rows sorted
        /\ Postgres.keep_latest rows = hd_error sorted).
Proof.
  split.
  - destruct (Postgres.keep_earliest rows) as [r|] eqn:E.
    + destruct (keep_earliest_max rows r E) as [Hin Hmax].
      destruct (ordering_from_max rows r Hin Hmax) as (t & Ho & Hh).
      exists t. now split.
    + rewrite (keep_earliest_none rows E). exists []. repeat constructor.
  - destruct (Postgres.keep_latest rows) as [r|] eqn:E.
    + destruct (keep_latest_max rows r E) as [Hin Hmax].
      destruct (ordering_from_max rows r Hin Hmax) as (t & Ho & Hh).
      exists t. now split.
    + rewrite (keep_latest_none rows E). exists []. repeat constructor.
Qed.

Lemma compared_rows_whatever_norm_witness :
  Pgvector.zero_norm Scripted.v00 = true
  /\ In (Scripted.faq_zero, S754_nan)
        (compared_rows (C := Scripted.earliest)
           {| faqs := [Scripted.faq_reset; Scripted.faq_zero] |}
           Scripted.v43 (Some "default")).
Proof.
  split; [reflexivity|].
  apply (proj2 (compared_rows_whatever_norm (C := Scripted.earliest)
                  {| faqs := [Scripted.faq_reset; Scripted.faq_zero] |}
                  Scripted.v43 (Some "default") Scripted.faq_zero S754_nan)).
  split; [right; left; reflexivity|].
  split.
  - exists Scripted.v00. split; reflexivity.
  - intros n E _. inversion E. reflexivity.
Defined.

(** C8, as stated, fails: a stored vector of norm zero is compared like any
    other.  Its similarity is NaN, which the engine sorts above every number,
    so the entry is even returned as the best match, ahead of an entry of
    similarity 0.96. *)
Lemma zero_norm_scored_counterexample :
  Pgvector.zero_norm Scripted.v00 = true
  /\ embedding Scripted.faq_zero = Some Scripted.v00
  /\ fst (search_similar_faq (C := Scripted.earliest)
            {| faqs := [Scripted.faq_reset; Scripted.faq_zero] |}
            "how do I reset my password" None
            (Scripted.start (Scripted.in_domain [Return Scripted.v43])))
     = Return (Some Scripted.faq_zero, S754_nan).
Proof. repeat split; reflexivity. Qed.

Lemma best_match_is_maximal_witness :
  let db := {| faqs := [Scripted.faq_pending; Scripted.faq_notify;
                        Scripted.faq_reset; faq_language] |} in
  let w := Scripted.start (Scripted.in_domain [Return Scripted.v43]) in
  let rows := compared_rows (C := Scripted.earliest) db Scripted.v43 None in
  rows = [(Scripted.faq_notify, S754_finite false 5921855217407797 (-53));
          (Scripted.faq_reset, S754_finite false 8646911284551352 (-53));
          (faq_language, S754_finite false 7897624073931958 (-53))]
  /\ exists (cand : option FAQ) (s : PyFloat.float),
       search_similar_faq (C := Scripted.earliest) db
         "how do I reset my password" None w
       = (Return (cand, s),
          record (DatabaseQuery None)
            {| remote := Scripted.in_domain [];
               calls := [EmbeddingsCall "how do I reset my password"] |})
       /\ match cand with
          | None => rows = [] /\ s = S754_zero false
          | Some faq =>
              In (faq, s) rows
              /\ (forall r, In r rows ->
                            Postgres.float8_ge s (snd r) = true)
              /\ (forall sorted' r',
                     Postgres.ordered_by_desc rows sorted' ->
                     hd_error sorted' = Some r' ->
                     Postgres.float8_eq (snd r') s = true
                     /\ ((forall r, In r rows ->
                                    Postgres.float8_ge (snd r) s = true ->
                                    r = (faq, s)) ->
                         r' = (faq, s)))
          end.
Proof.
  intros db w rows.
  assert (Hrows :
    rows = [(Scripted.faq_notify, S754_finite false 5921855217407797 (-53));
            (Scripted.faq_reset, S754_finite false 8646911284551352 (-53));
            (faq_language, S754_finite false 7897624073931958 (-53))])
    by (vm_compute; reflexivity).
  split; [exact Hrows|].
  apply (best_match_is_maximal (C := Scripted.earliest) db
           "how do I reset my password" None w _ Scripted.v43
           [(Scripted.faq_reset, S754_finite false 8646911284551352 (-53));
            (faq_language, S754_finite false 7897624073931958 (-53));
            (Scripted.faq_notify,
             S754_finite false 5921855217407797 (-53))]).
  - vm_compute. reflexivity.
  - fold rows. rewrite Hrows. split.
    + apply (Permutation_cons_app
               [(Scripted.faq_reset,
                 S754_finite false 8646911284551352 (-53));
                (faq_language, S754_finite false 7897624073931958 (-53))]
               []).
      rewrite app_nil_r. apply Permutation_refl.
    + repeat constructor; vm_compute; reflexivity.
  - fold rows. rewrite Hrows. vm_compute. reflexivity.
Defined.

(** C7, as stated, fails: two entries hold the same embedding, so they tie
    at similarity 0.96 and the query admits both orderings.  One engine
    answers with the head of the first, the other with the head of the
    second, which is the entry inserted second. *)
Lemma tie_not_first_inserted_counterexample :
  let db := {| faqs := [Scripted.faq_reset; Scripted.faq_email] |} in
  let w := Scripted.start (Scripted.in_domain [Return Scripted.v43]) in
  let rows := compared_rows (C := Scripted.latest) db Scripted.v43 None in
  let first := (Scripted.faq_reset, PyFloat.decimal 96 100) in
  let second := (Scripted.faq_email, PyFloat.decimal 96 100) in
  rows = [first; second]
  /\ Postgres.ordered_by_desc rows [first; second]
  /\ Postgres.ordered_by_desc rows [second; first]
  /\ Postgres.keep_earliest rows = hd_error [first; second]
  /\ Postgres.keep_latest rows = hd_error [second; first]
  /\ fst (search_similar_faq (C := Scripted.latest) db
            "how do I reset my password" None w)
     = Return (Some Scripted.faq_email, PyFloat.decimal 96 100)
  /\ fst (search_similar_faq (C := Scripted.earliest) db
            "how do I reset my password" None w)
     = Return (Some Scripted.faq_reset, PyFloat.decimal 96 100).
Proof.
  intros db w rows first second.
  assert (Hrows : rows = [first; second]) by (vm_compute; reflexivity).
  split; [exact Hrows|].
  rewrite Hrows.
  split; [|split; [|repeat split; vm_compute; reflexivity]].
  - split; [apply Permutation_refl|].
    repeat constructor; vm_compute; reflexivity.
  - split; [apply perm_swap|].
    repeat constructor; vm_compute; reflexivity.
Qed.

(** ** The endpoint *)

Section Endpoint.

Context {Remote : Type} {C : Collaborators Remote}.

(** Lengths count code points, not bytes. *)
Example len_counts_code_points : len "héé" = 3 /\ len "😀" = 1.
Proof. split; reflexivity. Qed.

Lemma truthy_empty (s : string) : truthy s = false <-> s = "".
Proof. destruct s; simpl; split; congruence. Qed.

Lemma len_lt_1 (s : string) : (len s <? 1) = true <-> s = "".
Proof.
  unfold len. rewrite Z.ltb_lt. destruct s; simpl; split; try congruence; lia.
Qed.

(** C9.  A question that is empty once stripped of leading and trailing
    whitespace (that of [str.strip]: the Unicode one) is refused with
    status 400 before anything else happens: the world is left as it was,
    so no call to the classifier, the embeddings API, the database or the
    generator was made.  Through the route the refusal is a 4xx one in every
    case (422 when the body already fails validation, 400 otherwise). *)
Theorem empty_question_rejected (raw : string) (db : Session)
  (w : World Remote) :
  strip raw = "" ->
  ask_question {| user_question := raw |} db w
  = (Raise (HTTPException 400 "Question cannot be empty"), w)
  /\ exists r, post_ask_question raw db w = (r, w)
               /\ 400 <= route_status r < 500.
Proof.
  intros Hs.
  assert (Ha : ask_question {| user_question := raw |} db w
               = (Raise (HTTPException 400 "Question cannot be empty"), w)).
  { unfold ask_question. cbn [user_question]. rewrite Hs. reflexivity. }
  split; [exact Ha|].
  unfold post_ask_question, validate_QuestionRequest.
  destruct (len raw <? 1).
  - eexists. split; [reflexivity|]. simpl. lia.
  - destruct (1000 <? len raw).
    + eexists. split; [reflexivity|]. simpl. lia.
    + rewrite Ha. eexists. split; [reflexivity|]. simpl. lia.
Qed.

(** C10.  A body whose question is the empty string or is longer than 1000
    characters (code points) fails validation and the endpoint is not run
    (the world is left as it was); otherwise the endpoint runs on the
    question as sent, whose length is between 1 and 1000, and its outcome is
    the route's. *)
Theorem question_length_bounds (raw : string) (db : Session)
  (w : World Remote) :
  ((raw = "" \/ 1000 < len raw)
   /\ exists msg, validate_QuestionRequest raw = RequestValidationError msg
                  /\ post_ask_question raw db w = (Unprocessable msg, w))
  \/ (1 <= len raw <= 1000
      /\ validate_QuestionRequest raw = Valid {| user_question := raw |}
      /\ post_ask_question raw db w
         = (Ran (fst (ask_question {| user_question := raw |} db w)),
            snd (ask_question {| user_question := raw |} db w))).
Proof.
  unfold post_ask_question, validate_QuestionRequest.
  destruct (len raw <? 1) eqn:E1.
  - left. apply len_lt_1 in E1. split; [left; exact E1|].
    eexists. split; reflexivity.
  - destruct (1000 <? len raw) eqn:E2.
    + left. apply Z.ltb_lt in E2. split; [right; exact E2|].
      eexists. split; reflexivity.
    + right. apply Z.ltb_ge in E1. apply Z.ltb_ge in E2.
      split; [lia|]. split; [reflexivity|].
      now destruct (ask_question {| user_question := raw |} db w).
Qed.

(** C3.  A question classified off topic is answered with the compliance
    envelope: source [compliance] (the off-topic tag), matched question
    [N/A] (the sentinel), the fixed compliance message and no similarity
    score.  The only call made is the one to the classifier: neither the
    embeddings API nor the database nor the generator is reached. *)
Theorem off_topic_answer (request : QuestionRequest) (db : Session)
  (w w' : World Remote) :
  truthy (strip (user_question request)) = true ->
  classify_question (strip (user_question request)) w = (Return false, w') ->
  ask_question request db w
  = (Return {| source := source_off_topic;
               matched_question := matched_none;
               response_answer := Constants.COMPLIANCE_MESSAGE;
               similarity_score := None |},
     w')
  /\ calls w' = calls w ++ [ClassifierCall (strip (user_question request))].
Proof.
  intros Ht Hc. split.
  - unfold ask_question. rewrite Ht. cbn [negb].
    unfold try_except, bind at 1. rewrite route_question_eq, Hc.
    reflexivity.
  - exact (classify_question_calls _ _ _ _ Hc).
Qed.

(** C1, as the code has it.  For an in-domain question whose best candidate
    has a score [s] with [s >= threshold] (the comparison is the inclusive
    one of floats, made on [s] itself), the answer is the local envelope:
    the candidate's question and answer, and as similarity score
    [round(s, 4)]. *)
Theorem local_answer (request : QuestionRequest) (db : Session)
  (w w1 w2 : World Remote) (faq : FAQ) (s : PyFloat.float) :
  truthy (strip (user_question request)) = true ->
  classify_question (strip (user_question request)) w = (Return true, w1) ->
  search_similar_faq db (strip (user_question request)) None w1
  = (Return (Some faq, s), w2) ->
  PyFloat.ge s (similarity_threshold settings) = true ->
  ask_question request db w
  = (Return {| source := source_local;
               matched_question := question faq;
               response_answer := answer faq;
               similarity_score := Some (PyFloat.round4 s) |},
     w2).
Proof.
  intros Ht Hc Hs Hge.
  unfold ask_question. rewrite Ht. cbn [negb].
  unfold try_except, bind at 1. rewrite route_question_eq, Hc.
  cbn [negb]. unfold bind at 1.
  rewrite (find_best_match_eq _ _ _ _ _ _ _ _ Hs).
  cbn [present andb]. rewrite Hge. reflexivity.
Qed.

(** C2, as the code has it.  For an in-domain question whose match does not
    pass the gate (no candidate, or a score that is not [>= threshold]),
    and when the generator returns a text, the answer is the generated
    envelope: source [openai] (the generated tag), matched question [N/A],
    the generator's text, and as similarity score [round(s, 4)] when a
    candidate existed and none otherwise.  And when no row is compared, the
    matcher returns no candidate and the score 0.0, without raising. *)
Theorem generated_answer :
  (forall (request : QuestionRequest) (db : Session)
          (w w1 w2 : World Remote) (cand : option FAQ) (s : PyFloat.float)
          (text : string) (r3 : Remote),
      truthy (strip (user_question request)) = true ->
      classify_question (strip (user_question request)) w = (Return true, w1) ->
      search_similar_faq db (strip (user_question request)) None w1
      = (Return (cand, s), w2) ->
      present cand && PyFloat.ge s (similarity_threshold settings) = false ->
      get_openai_answer (strip (user_question request)) (remote w2)
      = (Return text, r3) ->
      ask_question request db w
      = (Return {| source := source_generated;
                   matched_question := matched_none;
                   response_answer := text;
                   similarity_score :=
                     match cand with
                     | Some _ => Some (PyFloat.round4 s)
                     | None => None
                     end |},
         {| remote := r3;
            calls := calls w2
                     ++ [CompletionCall (strip (user_question request))] |}))
  /\ (forall (db : Session) (q : string) (name : option string)
             (w w1 : World Remote) (qe : Vector),
         generate_embedding q w = (Return qe, w1) ->
         compared_rows db qe name = [] ->
         Postgres.answers_first_by_desc [] (order_by_desc_first []) ->
         search_similar_faq db q name w
         = (Return (None, S754_zero false), record (DatabaseQuery name) w1)).
Proof.
  split.
  - intros request db w w1 w2 cand s text r3 Ht Hc Hs Hgate Hgen.
    unfold ask_question. rewrite Ht. cbn [negb].
    unfold try_except, bind at 1. rewrite route_question_eq, Hc.
    cbn [negb]. unfold bind at 1.
    rewrite (find_best_match_eq _ _ _ _ _ _ _ _ Hs), Hgate.
    unfold bind, remote_call, ret. rewrite Hgen.
    destruct cand; reflexivity.
  - intros db q name w w1 qe E Hrows Hok.
    rewrite (search_similar_faq_eq db q name w w1 qe E), Hrows.
    destruct (order_by_desc_first []) as [[f s]|]; [|reflexivity].
    destruct Hok as [[] _].
Qed.

End Endpoint.

(** The gate is inclusive: a candidate whose score equals the threshold
    passes it. *)
Lemma threshold_is_inclusive {Remote : Type} {C : Collaborators Remote}
  (db : Session) (q : string) (name : option string) (w w' : World Remote)
  (faq : FAQ) (t : PyFloat.float) :
  PyFloat.is_nan t = false ->
  search_similar_faq db q name w = (Return (Some faq, t), w') ->
  find_best_match db q t name w = (Return (Some faq, t, true), w').
Proof.
  intros Hn Hs. rewrite (find_best_match_eq _ _ _ _ _ _ _ _ Hs).
  cbn [present andb]. now rewrite ge_refl.
Qed.

Lemma local_answer_witness :
  let request := {| user_question := " how do I reset my password? " |} in
  let db := {| faqs := [Scripted.faq_reset] |} in
  let s := S754_finite false 8916672341536081 (-53) in
  ask_question (C := Scripted.earliest) request db
    (Scripted.start (Scripted.in_domain [Return Scripted.v11]))
  = (Return {| source := source_local;
               matched_question := question Scripted.faq_reset;
               response_answer := answer Scripted.faq_reset;
               similarity_score := Some (PyFloat.round4 s) |},
     {| remote := Scripted.in_domain [];
        calls := [ClassifierCall "how do I reset my password?";
                  EmbeddingsCall "how do I reset my password?";
                  DatabaseQuery None] |}).
Proof.
  intros request db s.
  eapply (local_answer (C := Scripted.earliest) request db).
  - vm_compute. reflexivity.
  - vm_compute. reflexivity.
  - vm_compute. reflexivity.
  - vm_compute. reflexivity.
Defined.

(** C1, as stated, fails: the best score is about 0.98995 and passes the
    gate, and the envelope carries 0.9899, which is another float. *)
Lemma local_score_rounded_counterexample :
  let request := {| user_question := " how do I reset my password? " |} in
  let db := {| faqs := [Scripted.faq_reset] |} in
  let w := Scripted.start (Scripted.in_domain [Return Scripted.v11]) in
  let s := S754_finite false 8916672341536081 (-53) in
  fst (search_similar_faq (C := Scripted.earliest) db
         "how do I reset my password?" None
         (snd (classify_question (C := Scripted.earliest)
                 "how do I reset my password?" w)))
  = Return (Some Scripted.faq_reset, s)
  /\ PyFloat.ge s (similarity_threshold (settings (Collaborators := Scripted.earliest))) = true
  /\ exists response,
       fst (ask_question (C := Scripted.earliest) request db w)
       = Return response
       /\ source response = source_local
       /\ similarity_score response = Some (PyFloat.decimal 9899 10000)
       /\ similarity_score response <> Some s.
Proof.
  intros request db w s.
  split; [vm_compute; reflexivity|].
  split; [vm_compute; reflexivity|].
  eexists. split; [vm_compute; reflexivity|].
  cbn [source similarity_score].
  split; [reflexivity|]. split; [vm_compute; reflexivity|].
  vm_compute. discriminate.
Qed.

Lemma generated_answer_witness :
  (let request := {| user_question := "how do I mute notifications" |} in
   let db := {| faqs := [Scripted.faq_notify] |} in
   let s := S754_finite false 7655900072039912 (-53) in
   ask_question (C := Scripted.earliest) request db
     (Scripted.start (Scripted.in_domain [Return Scripted.v0811]))
   = (Return {| source := source_generated;
                matched_question := matched_none;
                response_answer := "Try turning it off and on again.";
                similarity_score :=
                  match Some Scripted.faq_notify with
                  | Some _ => Some (PyFloat.round4 s)
                  | None => None
                  end |},
      {| remote := Scripted.in_domain [];
         calls := [ClassifierCall "how do I mute notifications";
                   EmbeddingsCall "how do I mute notifications";
                   DatabaseQuery None]
                  ++ [CompletionCall
                        (strip (user_question request))] |}))
  /\ search_similar_faq (C := Scripted.earliest)
       {| faqs := [Scripted.faq_pending] |} "how do I mute notifications"
       None (Scripted.start (Scripted.in_domain [Return Scripted.v0811]))
     = (Return (None, S754_zero false),
        record (DatabaseQuery None)
          {| remote := Scripted.in_domain [];
             calls := [EmbeddingsCall "how do I mute notifications"] |}).
Proof.
  split.
  - intros request db s.
    eapply (proj1 (generated_answer (C := Scripted.earliest)) request db
              _ _
              {| remote := Scripted.in_domain [];
                 calls := [ClassifierCall "how do I mute notifications";
                           EmbeddingsCall "how do I mute notifications";
                           DatabaseQuery None] |}
              (Some Scripted.faq_notify) s).
    + vm_compute. reflexivity.
    + vm_compute. reflexivity.
    + vm_compute. reflexivity.
    + vm_compute. reflexivity.
    + vm_compute. reflexivity.
  - eapply (proj2 (generated_answer (C := Scripted.earliest))
              {| faqs := [Scripted.faq_pending] |}
              "how do I mute notifications" None _ _ Scripted.v0811).
    + vm_compute. reflexivity.
    + vm_compute. reflexivity.
    + vm_compute. reflexivity.
Defined.

(** C2, as stated, fails: the best score found is about 0.849976, below the
    threshold 0.85, so the answer is generated; the envelope carries 0.85,
    not the score found. *)
Lemma generated_score_rounded_counterexample :
  let request := {| user_question := "how do I mute notifications" |} in
  let db := {| faqs := [Scripted.faq_notify] |} in
  let w := Scripted.start (Scripted.in_domain [Return Scripted.v0811]) in
  let s := S754_finite false 7655900072039912 (-53) in
  fst (search_similar_faq (C := Scripted.earliest) db
         "how do I mute notifications" None
         (snd (classify_question (C := Scripted.earliest)
                 "how do I mute notifications" w)))
  = Return (Some Scripted.faq_notify, s)
  /\ PyFloat.lt s (similarity_threshold (settings (Collaborators := Scripted.earliest))) = true
  /\ exists response,
       fst (ask_question (C := Scripted.earliest) request db w)
       = Return response
       /\ source response = source_generated
       /\ similarity_score response = Some (PyFloat.decimal 85 100)
       /\ similarity_score response <> Some s.
Proof.
  intros request db w s.
  split; [vm_compute; reflexivity|].
  split; [vm_compute; reflexivity|].
  eexists. split; [vm_compute; reflexivity|].
  cbn [source similarity_score].
  split; [reflexivity|]. split; [vm_compute; reflexivity|].
  vm_compute. discriminate.
Qed.

Lemma off_topic_answer_witness :
  let request := {| user_question := "what's the weather today" |} in
  let script := {| Scripted.classifier_reply := Return "OFF_TOPIC";
                   Scripted.embeddings_replies := [Return Scripted.v11];
                   Scripted.completion_reply := Return "Sunny." |} in
  ask_question (C := Scripted.earliest) request
    {| faqs := [Scripted.faq_reset] |} (Scripted.start script)
  = (Return {| source := source_off_topic;
               matched_question := matched_none;
               response_answer := Constants.COMPLIANCE_MESSAGE;
               similarity_score := None |},
     {| remote := script;
        calls := [ClassifierCall "what's the weather today"] |})
  /\ calls {| remote := script;
              calls := [ClassifierCall "what's the weather today"] |}
     = calls (Scripted.start script)
       ++ [ClassifierCall (strip (user_question request))].
Proof.
  intros request script.
  eapply (off_topic_answer (C := Scripted.earliest) request).
  - vm_compute. reflexivity.
  - vm_compute. reflexivity.
Defined.

Lemma empty_question_rejected_witness :
  let w := Scripted.start (Scripted.in_domain [Return Scripted.v11]) in
  let raw := String 32 (String 160 (String 8195 (String 12288 "")))%string in
  ask_question (C := Scripted.earliest) {| user_question := raw |}
    {| faqs := [Scripted.faq_reset] |} w
  = (Raise (HTTPException 400 "Question cannot be empty"), w)
  /\ exists r, post_ask_question (C := Scripted.earliest) raw
                 {| faqs := [Scripted.faq_reset] |} w = (r, w)
               /\ 400 <= route_status r < 500.
Proof.
  intros w raw.
  apply (empty_question_rejected (C := Scripted.earliest) raw).
  vm_compute. reflexivity.
Defined.

(** * Further properties of the pipeline *)

(** ** Stripping *)

Lemma lstrip_empty_iff (s : string) : lstrip s = "" <-> all_space s = true.
Proof.
  induction s as [|c s IH]; cbn [lstrip all_space]; [tauto|].
  destruct (is_space c); cbn [andb]; [exact IH|].
  split; discriminate.
Qed.

Lemma rstrip_empty_iff (s : string) : rstrip s = "" <-> all_space s = true.
Proof.
  induction s as [|c s IH]; cbn [rstrip all_space]; [tauto|].
  destruct (rstrip s) as [|d t].
  - destruct (is_space c); cbn [andb].
    + split; [intros _; now apply IH | reflexivity].
    + split; discriminate.
  - split; [discriminate|].
    intros H. apply andb_true_iff in H. destruct H as [_ H].
    apply IH in H. discriminate.
Qed.

Lemma all_space_lstrip (s : string) :
  all_space (lstrip s) = all_space s.
Proof.
  induction s as [|c s IH]; cbn [lstrip all_space]; [reflexivity|].
  destruct (is_space c) eqn:E; cbn [andb]; [exact IH|].
  cbn [all_space]. now rewrite E.
Qed.

Lemma strip_empty_iff (s : string) : strip s = "" <-> all_space s = true.
Proof.
  unfold strip. rewrite rstrip_empty_iff. now rewrite all_space_lstrip.
Qed.

Lemma lstrip_starts_nonspace (s : string) :
  lstrip s <> "" -> starts_nonspace (lstrip s) = true.
Proof.
  induction s as [|c s IH]; cbn [lstrip]; [congruence|].
  destruct (is_space c) eqn:E; [exact IH|].
  intros _. cbn [starts_nonspace]. now rewrite E.
Qed.

Lemma rstrip_starts_nonspace (s : string) :
  starts_nonspace s = true -> starts_nonspace (rstrip s) = true.
Proof.
  destruct s as [|c s]; [discriminate|].
  cbn [starts_nonspace rstrip]. intros Hc.
  destruct (is_space c) eqn:E; [discriminate|].
  destruct (rstrip s); cbn [starts_nonspace]; now rewrite E.
Qed.

Lemma rstrip_ends_nonspace (s : string) :
  rstrip s <> "" -> ends_nonspace (rstrip s) = true.
Proof.
  induction s as [|c s IH]; cbn [rstrip]; [congruence|].
  destruct (rstrip s) as [|d t].
  - destruct (is_space c) eqn:E; [congruence|].
    intros _. cbn [ends_nonspace]. now rewrite E.
  - intros _. cbn [ends_nonspace] in *. apply IH. discriminate.
Qed.

Lemma strip_idempotent_aux (s : string) :
  starts_nonspace s = true -> lstrip s = s.
Proof.
  destruct s as [|c s]; [reflexivity|].
  cbn [starts_nonspace lstrip]. now destruct (is_space c).
Qed.

Lemma rstrip_idempotent (s : string) : rstrip (rstrip s) = rstrip s.
Proof.
  induction s as [|c s IH]; cbn [rstrip]; [reflexivity|].
  destruct (rstrip s) as [|d t] eqn:E.
  - destruct (is_space c) eqn:Ec; [reflexivity|].
    cbn [rstrip]. now rewrite Ec.
  - cbn [rstrip] in *. now rewrite IH.
Qed.

(** ** Outcomes of the endpoint *)

Section EndpointOutcomes.

Context {Remote : Type} {C : Collaborators Remote}.

(** [generate_embedding] unfolded over its three attempts. *)
Lemma generate_embedding_eq (text : string) (w : World Remote) :
  let fn := remote_call (EmbeddingsCall text) (embeddings_create text) in
  generate_embedding text w
  = match fn w with
    | (Return v, w1) => (Return v, w1)
    | (Raise _, w1) =>
        match fn (record (Sleep 2) w1) with
        | (Return v, w2) => (Return v, w2)
        | (Raise _, w2) => fn (record (Sleep 2) w2)
        end
    end.
Proof.
  intros fn. unfold generate_embedding, Decorators.retry_on_api_error,
    Decorators.retry.
  change (Z.to_nat (Constants.RETRY_MAX_ATTEMPTS - 1)) with 2%nat.
  cbn [Decorators.attempts]. fold fn.
  destruct (fn w) as [[v|e] w1]; [reflexivity|].
  change (Decorators.wait_exponential Constants.RETRY_MULTIPLIER
            Constants.RETRY_MIN_WAIT Constants.RETRY_MAX_WAIT 1) with 2.
  destruct (fn (record (Sleep 2) w1)) as [[v|e'] w2]; [reflexivity|].
  change (Decorators.wait_exponential Constants.RETRY_MULTIPLIER
            Constants.RETRY_MIN_WAIT Constants.RETRY_MAX_WAIT (1 + 1)) with 2.
  destruct (fn (record (Sleep 2) w2)) as [[v|e''] w3]; reflexivity.
Qed.

(** The endpoint on a question that is not blank, stage by stage. *)
Lemma ask_question_eq (request : QuestionRequest) (db : Session)
  (w : World Remote) :
  let q := strip (user_question request) in
  truthy q = true ->
  ask_question request db w
  = match classify_question q w with
    | (Raise e, w1) =>
        (Raise (HTTPException 500
                  ("Error processing your question: " ++ str_exn e)%string),
         w1)
    | (Return false, w1) =>
        (Return {| source := "compliance";
                   matched_question := "N/A";
                   response_answer := Constants.COMPLIANCE_MESSAGE;
                   similarity_score := None |}, w1)
    | (Return true, w1) =>
        match search_similar_faq db q None w1 with
        | (Raise e, w2) =>
            (Raise (HTTPException 500
                      ("Error processing your question: " ++ str_exn e)%string),
             w2)
        | (Return (cand, s), w2) =>
            match (if present cand
                      && PyFloat.ge s (similarity_threshold settings)
                   then cand else None) with
            | Some hit =>
                (Return {| source := "local";
                           matched_question := question hit;
                           response_answer := answer hit;
                           similarity_score := Some (PyFloat.round4 s) |}, w2)
            | None =>
                match get_openai_answer q (remote w2) with
                | (Return text, r3) =>
                    (Return {| source := "openai";
                               matched_question := "N/A";
                               response_answer := text;
                               similarity_score :=
                                 if present cand
                                 then Some (PyFloat.round4 s) else None |},
                     {| remote := r3;
                        calls := calls w2 ++ [CompletionCall q] |})
                | (Raise e, r3) =>
                    (Raise (HTTPException 500
                              ("Error processing your question: "
                               ++ str_exn e)%string),
                     {| remote := r3;
                        calls := calls w2 ++ [CompletionCall q] |})
                end
            end
        end
    end.
Proof.
  intros q Ht. unfold ask_question. fold q. rewrite Ht. cbn [negb].
  unfold try_except, bind at 1. rewrite route_question_eq.
  destruct (classify_question q w) as [[[]|e] w1]; try reflexivity.
  cbn [negb]. unfold bind at 1, find_best_match, bind at 1.
  destruct (search_similar_faq db q None w1) as [[[cand s]|e] w2];
    [|reflexivity].
  destruct (present cand && PyFloat.ge s (similarity_threshold settings))
    eqn:Eg; unfold ret at 1.
  - destruct cand as [hit|]; [reflexivity | discriminate].
  - unfold bind, remote_call, ret, raise.
    destruct (get_openai_answer q (remote w2)) as [[text|e] r3]; reflexivity.
Qed.

End EndpointOutcomes.

Section EndpointLogs.

Context {Remote : Type} {C : Collaborators Remote}.

Lemma generate_embedding_log (text : string) (w : World Remote) :
  exists k : nat,
    (1 <= k <= 3)%nat
    /\ calls (snd (generate_embedding text w))
       = calls w ++ embedding_attempts text k
    /\ (forall e, fst (generate_embedding text w) = Raise e -> k = 3%nat).
Proof.
  rewrite generate_embedding_eq. unfold remote_call, record.
  cbn [remote calls].
  destruct (embeddings_create text (remote w)) as [[v|e1] s1];
    cbn [remote calls].
  - exists 1%nat. cbn [fst snd calls embedding_attempts].
    split; [lia|]. split; [reflexivity|]. intros e H; discriminate H.
  - destruct (embeddings_create text s1) as [[v|e2] s2]; cbn [remote calls].
    + exists 2%nat. cbn [fst snd calls embedding_attempts app].
      rewrite <- !app_assoc.
      split; [lia|]. split; [reflexivity|]. intros e H; discriminate H.
    + exists 3%nat. destruct (embeddings_create text s2) as [r s3].
      cbn [fst snd calls embedding_attempts app].
      rewrite <- !app_assoc.
      split; [lia|]. split; [reflexivity|]. intros; reflexivity.
Qed.

Lemma search_similar_faq_log (db : Session) (q : string)
  (name : option string) (w : World Remote) :
  exists k : nat,
    (1 <= k <= 3)%nat
    /\ match fst (search_similar_faq db q name w) with
       | Return _ =>
           calls (snd (search_similar_faq db q name w))
           = calls w ++ embedding_attempts q k ++ [DatabaseQuery name]
       | Raise _ =>
           k = 3%nat
           /\ calls (snd (search_similar_faq db q name w))
              = calls w ++ embedding_attempts q k
       end.
Proof.
  destruct (generate_embedding_log q w) as (k & Hk & Hlog & Hfail).
  exists k. split; [exact Hk|].
  destruct (generate_embedding q w) as [[qe|e] w1] eqn:E.
  - rewrite (search_similar_faq_eq db q name w w1 qe E).
    cbn [fst snd record calls] in *. rewrite Hlog, <- app_assoc. reflexivity.
  - rewrite (search_similar_faq_raise db q name w w1 e E).
    cbn [fst snd] in *. split; [exact (Hfail e eq_refl) | exact Hlog].
Qed.

(** The calls a request makes form one of the sequences of
    [request_logs]. *)
Lemma ask_question_log (request : QuestionRequest) (db : Session)
  (w : World Remote) :
  exists log,
    In log (request_logs (strip (user_question request)))
    /\ calls (snd (ask_question request db w)) = calls w ++ log
    /\ (truthy (strip (user_question request)) = false -> log = []).
Proof.
  set (q := strip (user_question request)).
  destruct (truthy q) eqn:Ht.
  2:{ exists []. split; [left; reflexivity|].
      unfold ask_question. fold q. rewrite Ht. cbn.
      now rewrite app_nil_r. }
  cut (exists log, In log (request_logs q)
                   /\ calls (snd (ask_question request db w)) = calls w ++ log).
  { intros (log & H1 & H2). exists log. repeat split; auto; discriminate. }
  rewrite (ask_question_eq request db w Ht). fold q.
  rewrite classify_question_eq.
  set (w1 := {| remote := snd (chain_invoke q (remote w));
                calls := calls w ++ [ClassifierCall q] |}).
  destruct (match fst (chain_invoke q (remote w)) with
            | Return content =>
                contains "IT_RELATED" (upper (strip content))
                || contains "YES" (upper (strip content))
            | Raise _ => true
            end).
  2:{ exists [ClassifierCall q]. split; [right; left; reflexivity|].
      reflexivity. }
  destruct (search_similar_faq_log db q None w1) as (k & Hk & Hlog).
  destruct (search_similar_faq db q None w1) as [[[cand s]|e] w2].
  - cbn [fst snd] in Hlog.
    assert (Hin1 : In (ClassifierCall q :: embedding_attempts q k
                         ++ [DatabaseQuery None]) (request_logs q)).
    { assert (Hk' : k = 1%nat \/ k = 2%nat \/ k = 3%nat) by lia.
      destruct Hk' as [-> | [-> | ->]]; cbn; tauto. }
    assert (Hin2 : In (ClassifierCall q :: embedding_attempts q k
                         ++ [DatabaseQuery None; CompletionCall q])
                      (request_logs q)).
    { assert (Hk' : k = 1%nat \/ k = 2%nat \/ k = 3%nat) by lia.
      destruct Hk' as [-> | [-> | ->]]; cbn; tauto. }
    destruct (if present cand && PyFloat.ge s (similarity_threshold settings)
              then cand else None) as [hit|].
    + eexists. split; [exact Hin1|]. cbn [snd]. rewrite Hlog.
      unfold w1. cbn [calls]. rewrite <- !app_assoc. reflexivity.
    + exists (ClassifierCall q :: embedding_attempts q k
                ++ [DatabaseQuery None; CompletionCall q]).
      split; [exact Hin2|].
      destruct (get_openai_answer q (remote w2)) as [[text|e] r3];
        cbn [snd calls]; rewrite Hlog; unfold w1; cbn [calls];
        rewrite <- !app_assoc; reflexivity.
  - cbn [fst snd] in Hlog. destruct Hlog as [-> Hlog].
    exists (ClassifierCall q :: embedding_attempts q 3).
    split; [right; right; left; reflexivity|].
    cbn [snd]. rewrite Hlog. unfold w1. cbn [calls].
    rewrite <- !app_assoc. reflexivity.
Qed.

End EndpointLogs.

Section EndpointProperties.

Context {Remote : Type} {C : Collaborators Remote}.

Lemma strip_nonblank (raw : string) :
  truthy (strip raw) = true ->
  starts_nonspace (strip raw) = true /\ ends_nonspace (strip raw) = true.
Proof.
  intros Ht.
  assert (Hne : strip raw <> "").
  { intros E. rewrite E in Ht. discriminate. }
  unfold strip in *. split.
  - apply rstrip_starts_nonspace, lstrip_starts_nonspace.
    intros E. apply Hne. now rewrite E.
  - now apply rstrip_ends_nonspace.
Qed.

Lemma truthy_all_space (raw : string) :
  truthy (strip raw) = negb (all_space raw).
Proof.
  destruct (all_space raw) eqn:E.
  - apply strip_empty_iff in E. now rewrite E.
  - destruct (strip raw) eqn:Es; [|reflexivity].
    apply strip_empty_iff in Es. congruence.
Qed.

(** X1.  The endpoint answers a question made of whitespace only (the empty
    one included) with status 400 and touches nothing; any other question
    gets either an envelope or status 500.  Status 500 comes with the fixed
    prefix followed by [str(e)] of the exception caught, which is the one
    the search raised or, when the search returned, the one the generator
    raised: the classifier's failures never surface.  No other status
    leaves the endpoint. *)
Theorem ask_question_statuses (raw : string) (db : Session)
  (w : World Remote) :
  let q := strip raw in
  let outcome := fst (ask_question {| user_question := raw |} db w) in
  (all_space raw = true
   /\ ask_question {| user_question := raw |} db w
      = (Raise (HTTPException 400 "Question cannot be empty"), w))
  \/ (all_space raw = false
      /\ ((exists response, outcome = Return response)
          \/ (exists e w1,
                classify_question q w = (Return true, w1)
                /\ outcome
                   = Raise (HTTPException 500
                              ("Error processing your question: "
                               ++ str_exn e)%string)
                /\ (fst (search_similar_faq db q None w1) = Raise e
                    \/ exists found w2,
                         search_similar_faq db q None w1 = (Return found, w2)
                         /\ fst (get_openai_answer q (remote w2))
                            = Raise e)))).
Proof.
  intros q outcome. subst q outcome.
  pose proof (truthy_all_space raw) as Ht.
  destruct (all_space raw) eqn:E; cbn [negb] in Ht.
  - left. split; [reflexivity|].
    unfold ask_question. cbn [user_question]. now rewrite Ht.
  - right. split; [reflexivity|].
    rewrite (ask_question_eq {| user_question := raw |} db w Ht).
    cbn [user_question].
    rewrite (classify_question_eq (strip raw) w).
    set (w1 := {| remote := snd (chain_invoke (strip raw) (remote w));
                  calls := calls w ++ [ClassifierCall (strip raw)] |}).
    destruct (match fst (chain_invoke (strip raw) (remote w)) with
              | Return content =>
                  contains "IT_RELATED" (upper (strip content))
                  || contains "YES" (upper (strip content))
              | Raise _ => true
              end); cbn [fst]; [|left; eexists; reflexivity].
    destruct (search_similar_faq db (strip raw) None w1)
      as [[[cand s]|e] w2] eqn:Es; cbn [fst].
    + destruct (if present cand
                   && PyFloat.ge s (similarity_threshold settings)
                then cand else None) as [hit|];
        cbn [fst]; [left; eexists; reflexivity|].
      destruct (get_openai_answer (strip raw) (remote w2))
        as [[text|e] r3] eqn:Eg;
        cbn [fst]; [left; eexists; reflexivity|].
      right. exists e, w1. split; [reflexivity|]. split; [reflexivity|].
      right. exists (cand, s), w2. split; [exact Es|].
      now rewrite Eg.
    + right. exists e, w1. split; [reflexivity|]. split; [reflexivity|].
      left. now rewrite Es.
Qed.

(** X2.  When the embeddings API fails three times in a row on an in-domain
    question, the endpoint answers 500 with the text of the third failure;
    it has waited two seconds twice, and neither the database nor the
    generator was reached. *)
Theorem embedding_outage_is_500 (request : QuestionRequest) (db : Session)
  (w w1 : World Remote) (e1 e2 e3 : Exn) (s1 s2 s3 : Remote) :
  let q := strip (user_question request) in
  truthy q = true ->
  classify_question q w = (Return true, w1) ->
  embeddings_create q (remote w1) = (Raise e1, s1) ->
  embeddings_create q s1 = (Raise e2, s2) ->
  embeddings_create q s2 = (Raise e3, s3) ->
  ask_question request db w
  = (Raise (HTTPException 500
              ("Error processing your question: " ++ str_exn e3)%string),
     {| remote := s3;
        calls := calls w1 ++ [EmbeddingsCall q; Sleep 2; EmbeddingsCall q;
                              Sleep 2; EmbeddingsCall q] |}).
Proof.
  intros q Ht Hc H1 H2 H3.
  rewrite (ask_question_eq request db w Ht). fold q. rewrite Hc.
  assert (Hg : generate_embedding q w1
               = (Raise e3,
                  {| remote := s3;
                     calls := calls w1 ++ [EmbeddingsCall q; Sleep 2;
                                           EmbeddingsCall q; Sleep 2;
                                           EmbeddingsCall q] |})).
  { rewrite generate_embedding_eq. unfold remote_call, record.
    cbn [remote calls]. rewrite H1. cbn [remote calls]. rewrite H2.
    cbn [remote calls]. rewrite H3. rewrite <- !app_assoc. reflexivity. }
  now rewrite (search_similar_faq_raise db q None w1 _ e3 Hg).
Qed.

(** X3.  The generator is not guarded: when no stored entry passes the
    threshold and the generator raises, the endpoint answers 500 with the
    generator's message, after exactly one call to it. *)
Theorem generator_failure_is_500 (request : QuestionRequest) (db : Session)
  (w w1 w2 : World Remote) (candidate : option FAQ) (s : PyFloat.float)
  (e : Exn) (r : Remote) :
  let q := strip (user_question request) in
  truthy q = true ->
  classify_question q w = (Return true, w1) ->
  search_similar_faq db q None w1 = (Return (candidate, s), w2) ->
  present candidate && PyFloat.ge s (similarity_threshold settings) = false ->
  get_openai_answer q (remote w2) = (Raise e, r) ->
  ask_question request db w
  = (Raise (HTTPException 500
              ("Error processing your question: " ++ str_exn e)%string),
     {| remote := r; calls := calls w2 ++ [CompletionCall q] |}).
Proof.
  intros q Ht Hc Hs Hg Ho.
  rewrite (ask_question_eq request db w Ht). fold q.
  now rewrite Hc, Hs, Hg, Ho.
Qed.

(** X4.  Every envelope the endpoint returns has one of three shapes: the
    compliance one (fixed answer, no matched question, no score); a local
    one, which always carries a score; a generated one, which never names a
    matched question. *)
Theorem envelope_shapes (request : QuestionRequest) (db : Session)
  (w w' : World Remote) (response : QuestionResponse) :
  ask_question request db w = (Return response, w') ->
  (source response = "compliance"
   /\ matched_question response = "N/A"
   /\ response_answer response = Constants.COMPLIANCE_MESSAGE
   /\ similarity_score response = None)
  \/ (source response = "local"
      /\ exists score, similarity_score response = Some score)
  \/ (source response = "openai"
      /\ matched_question response = "N/A").
Proof.
  intros H.
  destruct (truthy (strip (user_question request))) eqn:Ht.
  2:{ unfold ask_question in H. rewrite Ht in H. discriminate H. }
  rewrite (ask_question_eq request db w Ht) in H.
  destruct (classify_question (strip (user_question request)) w)
    as [[[|]|e] w1]; [| |discriminate H].
  2:{ injection H as <- _. left. repeat split. }
  destruct (search_similar_faq db (strip (user_question request)) None w1)
    as [[[cand s]|e] w2]; [|discriminate H].
  destruct (if present cand && PyFloat.ge s (similarity_threshold settings)
            then cand else None) as [hit|].
  - injection H as <- _. right; left. split; [reflexivity|].
    eexists; reflexivity.
  - destruct (get_openai_answer (strip (user_question request)) (remote w2))
      as [[text|e] r3]; [|discriminate H].
    injection H as <- _. right; right. split; reflexivity.
Qed.

(** X5.  The calls one request makes, in order, form one of nine
    sequences: nothing; the classifier alone; the classifier and three failed
    attempts at the embeddings API; or the classifier, one to three
    attempts, the database query and then, possibly, the generator.  So the
    database is queried only after an embedding was obtained, and the
    generator is called only after the database was queried. *)
Theorem request_call_sequences (request : QuestionRequest) (db : Session)
  (w : World Remote) :
  exists log,
    In log (request_logs (strip (user_question request)))
    /\ calls (snd (ask_question request db w)) = calls w ++ log.
Proof.
  destruct (ask_question_log request db w) as (log & H1 & H2 & _).
  now exists log.
Qed.

Lemma request_logs_budget (q : string) (log : list Call) :
  In log (request_logs q) ->
  (count_calls is_classifier_call log <= 1)%nat
  /\ (count_calls is_embeddings_call log <= 3)%nat
  /\ (count_calls is_database_query log <= 1)%nat
  /\ (count_calls is_completion_call log <= 1)%nat
  /\ slept log <= 4.
Proof.
  intros H. cbn in H.
  repeat (destruct H as [<- | H]; [cbn; repeat split; lia|]).
  destruct H.
Qed.

(** X6.  One request costs at most one call to the classifier, three to the
    embeddings API, one database query and one call to the generator, and
    sleeps at most four seconds between attempts. *)
Theorem request_budget (request : QuestionRequest) (db : Session)
  (w : World Remote) :
  exists log,
    calls (snd (ask_question request db w)) = calls w ++ log
    /\ (count_calls is_classifier_call log <= 1)%nat
    /\ (count_calls is_embeddings_call log <= 3)%nat
    /\ (count_calls is_database_query log <= 1)%nat
    /\ (count_calls is_completion_call log <= 1)%nat
    /\ slept log <= 4.
Proof.
  destruct (ask_question_log request db w) as (log & H1 & H2 & _).
  exists log. split; [exact H2|].
  exact (request_logs_budget _ log H1).
Qed.

Lemma request_logs_texts (q : string) (log : list Call) (c : Call)
  (t : string) :
  In log (request_logs q) -> In c log -> call_text c = Some t -> t = q.
Proof.
  intros H Hc Ht. cbn in H.
  repeat (destruct H as [<- | H];
          [cbn in Hc;
           repeat (destruct Hc as [<- | Hc];
                   [cbn in Ht; congruence|]);
           destruct Hc|]).
  destruct H.
Qed.

(** X7.  Whatever text a request sends to the classifier, to the embeddings
    API or to the generator is the question stripped of surrounding
    whitespace: it is not empty and neither starts nor ends with a
    whitespace character. *)
Theorem remote_texts_are_stripped (request : QuestionRequest) (db : Session)
  (w : World Remote) :
  exists log,
    calls (snd (ask_question request db w)) = calls w ++ log
    /\ forall c t,
         In c log -> call_text c = Some t ->
         t = strip (user_question request)
         /\ starts_nonspace t = true
         /\ ends_nonspace t = true.
Proof.
  destruct (ask_question_log request db w) as (log & H1 & H2 & H3).
  exists log. split; [exact H2|].
  intros c t Hc Ht.
  assert (E : t = strip (user_question request))
    by exact (request_logs_texts _ log c t H1 Hc Ht).
  split; [exact E|]. subst t.
  apply strip_nonblank.
  destruct (truthy (strip (user_question request))); [reflexivity|].
  rewrite (H3 eq_refl) in Hc. destruct Hc.
Qed.

(** X8.  The router never raises and makes exactly one call to the
    classifier; its two results are [("it_related", True)] and
    [("compliance", False)], so the flag tells the label. *)
Theorem route_question_total (q : string) (w : World Remote) :
  exists label continue w',
    route_question q w = (Return (label, continue), w')
    /\ calls w' = calls w ++ [ClassifierCall q]
    /\ ((label = "it_related" /\ continue = true)
        \/ (label = "compliance" /\ continue = false)).
Proof.
  unfold route_question, bind. rewrite classify_question_eq.
  destruct (match fst (chain_invoke q (remote w)) with
            | Return content =>
                contains "IT_RELATED" (upper (strip content))
                || contains "YES" (upper (strip content))
            | Raise _ => true
            end);
    do 3 eexists; (split; [reflexivity|]); (split; [reflexivity|]); tauto.
Qed.

End EndpointProperties.

(** ** The threshold gate *)

Lemma SFleb_trans (a b c : spec_float) :
  SFleb a b = true -> SFleb b c = true -> SFleb a c = true.
Proof.
  unfold SFleb.
  destruct a as [sa|sa| |sa ma ea], b as [sb|sb| |sb mb eb],
           c as [sc|sc| |sc mc ec];
    cbn [SFcompare];
    try (intros; discriminate);
    try reflexivity;
    repeat match goal with s : bool |- _ => destruct s end;
    try (intros; discriminate);
    try reflexivity;
    change (Pos.compare_cont Eq) with Pos.compare;
    destruct (Z.compare_spec ea eb); destruct (Z.compare_spec eb ec);
    destruct (Z.compare_spec ea ec);
    destruct (Pos.compare_spec ma mb); destruct (Pos.compare_spec mb mc);
    destruct (Pos.compare_spec ma mc);
    cbn [CompOpp]; intros; try reflexivity; try discriminate; lia.
Qed.

Lemma ge_not_nan (s t : PyFloat.float) :
  PyFloat.ge s t = true ->
  PyFloat.is_nan s = false /\ PyFloat.is_nan t = false.
Proof.
  unfold PyFloat.ge, SFleb.
  destruct s, t; cbn [SFcompare PyFloat.is_nan]; intros H;
    try discriminate H; split; reflexivity.
Qed.

Section Gate.

Context {Remote : Type} {C : Collaborators Remote}.

Lemma find_best_match_inv (db : Session) (q : string)
  (t : PyFloat.float) (name : option string) (w w' : World Remote)
  (faq : option FAQ) (s : PyFloat.float) (flag : bool) :
  find_best_match db q t name w = (Return (faq, s, flag), w') ->
  search_similar_faq db q name w = (Return (faq, s), w')
  /\ flag = present faq && PyFloat.ge s t.
Proof.
  unfold find_best_match, bind, ret.
  destruct (search_similar_faq db q name w) as [[[faq0 s0]|e] w0];
    [|discriminate].
  destruct (present faq0 && PyFloat.ge s0 t) eqn:E; intros H;
    injection H as <- <- <- <-; split; congruence.
Qed.

(** X9.  The matcher reports a match above the threshold only for what the
    search returned, only when a candidate is present, and never when the
    score or the threshold is NaN: an empty corpus passes no threshold, not
    even zero or a negative one. *)
Theorem gate_passes_only (db : Session) (q : string) (t : PyFloat.float)
  (name : option string) (w w' : World Remote) (faq : option FAQ)
  (s : PyFloat.float) :
  find_best_match db q t name w = (Return (faq, s, true), w') ->
  search_similar_faq db q name w = (Return (faq, s), w')
  /\ present faq = true
  /\ PyFloat.ge s t = true
  /\ PyFloat.is_nan s = false
  /\ PyFloat.is_nan t = false.
Proof.
  intros H. apply find_best_match_inv in H. destruct H as [Hs Hf].
  symmetry in Hf. apply andb_true_iff in Hf. destruct Hf as [Hp Hg].
  pose proof (ge_not_nan s t Hg) as [Hn1 Hn2]. tauto.
Qed.

(** X10.  Lowering the threshold never loses a match: what passes the
    threshold [t] passes every threshold [t'] with [t >= t'], with the same
    candidate, the same score and the same calls. *)
Theorem gate_monotone (db : Session) (q : string) (t t' : PyFloat.float)
  (name : option string) (w w' : World Remote) (faq : option FAQ)
  (s : PyFloat.float) :
  find_best_match db q t name w = (Return (faq, s, true), w') ->
  PyFloat.ge t t' = true ->
  find_best_match db q t' name w = (Return (faq, s, true), w').
Proof.
  intros H Ht. apply find_best_match_inv in H. destruct H as [Hs Hf].
  symmetry in Hf. apply andb_true_iff in Hf. destruct Hf as [Hp Hg].
  rewrite (find_best_match_eq db q t' name w w' faq s Hs), Hp.
  unfold PyFloat.ge in *. now rewrite (SFleb_trans t' t s Ht Hg).
Qed.

End Gate.

(** ** Waiting between attempts *)

(** X11.  Whatever the number of the attempt that failed, the wait before
    the next one lies between [RETRY_MIN_WAIT] and [RETRY_MAX_WAIT] seconds;
    it never shrinks from one attempt to the next and has reached the
    ceiling from the fifth attempt on. *)
Theorem wait_exponential_bounds (attempt_number : Z) :
  1 <= attempt_number ->
  let wait :=
    wait_exponential RETRY_MULTIPLIER RETRY_MIN_WAIT RETRY_MAX_WAIT in
  RETRY_MIN_WAIT <= wait attempt_number <= RETRY_MAX_WAIT
  /\ wait attempt_number <= wait (attempt_number + 1)
  /\ (5 <= attempt_number -> wait attempt_number = RETRY_MAX_WAIT).
Proof.
  intros Hn wait. unfold wait, wait_exponential.
  unfold RETRY_MULTIPLIER, RETRY_MIN_WAIT, RETRY_MAX_WAIT.
  replace (attempt_number + 1 - 1) with (Z.succ (attempt_number - 1)) by lia.
  rewrite Z.pow_succ_r by lia.
  pose proof (Z.pow_pos_nonneg 2 (attempt_number - 1)) as Hpos.
  split; [lia|]. split; [lia|].
  intros H5.
  assert (2 ^ 4 <= 2 ^ (attempt_number - 1))
    by (apply Z.pow_le_mono_r; lia).
  change (2 ^ 4) with 16 in *. lia.
Qed.

(** ** Instances *)

Lemma embedding_outage_is_500_witness :
  let request := {| user_question := " how do I reset my password? " |} in
  let db := {| faqs := [Scripted.faq_reset] |} in
  let outage := [Raise (Exception "Connection error.");
                 Raise (Exception "Request timed out.");
                 Raise (Exception "Rate limit reached.")] in
  ask_question (C := Scripted.earliest) request db
    (Scripted.start (Scripted.in_domain outage))
  = (Raise (HTTPException 500
              "Error processing your question: Rate limit reached."),
     {| remote := Scripted.in_domain [];
        calls := [ClassifierCall "how do I reset my password?";
                  EmbeddingsCall "how do I reset my password?"; Sleep 2;
                  EmbeddingsCall "how do I reset my password?"; Sleep 2;
                  EmbeddingsCall "how do I reset my password?"] |}).
Proof.
  intros request db outage.
  eapply (embedding_outage_is_500 (C := Scripted.earliest) request db
            (Scripted.start (Scripted.in_domain outage))
            {| remote := Scripted.in_domain outage;
               calls := [ClassifierCall "how do I reset my password?"] |}
            (Exception "Connection error.")
            (Exception "Request timed out.")
            (Exception "Rate limit reached.")).
  - vm_compute. reflexivity.
  - vm_compute. reflexivity.
  - vm_compute. reflexivity.
  - vm_compute. reflexivity.
  - vm_compute. reflexivity.
Defined.

Lemma generator_failure_is_500_witness :
  let request := {| user_question := "how do I mute notifications" |} in
  let db := {| faqs := [Scripted.faq_pending] |} in
  let script := {| Scripted.classifier_reply := Return "IT_RELATED";
                   Scripted.embeddings_replies := [Return Scripted.v0811];
                   Scripted.completion_reply :=
                     Raise (HTTPException 429 "Too many requests") |} in
  let spent := {| Scripted.classifier_reply := Return "IT_RELATED";
                  Scripted.embeddings_replies := [];
                  Scripted.completion_reply :=
                    Raise (HTTPException 429 "Too many requests") |} in
  ask_question (C := Scripted.earliest) request db (Scripted.start script)
  = (Raise (HTTPException 500
              "Error processing your question: 429: Too many requests"),
     {| remote := spent;
        calls := [ClassifierCall "how do I mute notifications";
                  EmbeddingsCall "how do I mute notifications";
                  DatabaseQuery None]
                 ++ [CompletionCall "how do I mute notifications"] |}).
Proof.
  intros request db script spent.
  eapply (generator_failure_is_500 (C := Scripted.earliest) request db
            (Scripted.start script)
            {| remote := script;
               calls := [ClassifierCall "how do I mute notifications"] |}
            {| remote := spent;
               calls := [ClassifierCall "how do I mute notifications";
                         EmbeddingsCall "how do I mute notifications";
                         DatabaseQuery None] |}
            None (S754_zero false) (HTTPException 429 "Too many requests") spent).
  - vm_compute. reflexivity.
  - vm_compute. reflexivity.
  - vm_compute. reflexivity.
  - vm_compute. reflexivity.
  - vm_compute. reflexivity.
Defined.

Lemma envelope_shapes_witness :
  let response := {| source := "openai";
                     matched_question := "N/A";
                     response_answer := "Try turning it off and on again.";
                     similarity_score := None |} in
  (source response = "compliance"
   /\ matched_question response = "N/A"
   /\ response_answer response = Constants.COMPLIANCE_MESSAGE
   /\ similarity_score response = None)
  \/ (source response = "local"
      /\ exists score, similarity_score response = Some score)
  \/ (source response = "openai"
      /\ matched_question response = "N/A").
Proof.
  intros response.
  eapply (envelope_shapes (C := Scripted.earliest)
            {| user_question := "how do I mute notifications" |}
            {| faqs := [Scripted.faq_pending] |}
            (Scripted.start (Scripted.in_domain [Return Scripted.v0811]))
            {| remote := Scripted.in_domain [];
               calls := [ClassifierCall "how do I mute notifications";
                         EmbeddingsCall "how do I mute notifications";
                         DatabaseQuery None;
                         CompletionCall "how do I mute notifications"] |}
            response).
  vm_compute. reflexivity.
Defined.

Lemma gate_passes_only_witness :
  let db := {| faqs := [Scripted.faq_reset] |} in
  let w := Scripted.start (Scripted.in_domain [Return Scripted.v11]) in
  let w' := {| remote := Scripted.in_domain [];
               calls := [EmbeddingsCall "reset my password";
                         DatabaseQuery None] |} in
  let s := S754_finite false 8916672341536081 (-53) in
  search_similar_faq (C := Scripted.earliest) db "reset my password" None w
  = (Return (Some Scripted.faq_reset, s), w')
  /\ present (Some Scripted.faq_reset) = true
  /\ PyFloat.ge s (PyFloat.decimal 85 100) = true
  /\ PyFloat.is_nan s = false
  /\ PyFloat.is_nan (PyFloat.decimal 85 100) = false.
Proof.
  intros db w w' s.
  apply (gate_passes_only (C := Scripted.earliest) db "reset my password"
           (PyFloat.decimal 85 100) None w w').
  vm_compute. reflexivity.
Defined.

Lemma gate_monotone_witness :
  let db := {| faqs := [Scripted.faq_reset] |} in
  let w := Scripted.start (Scripted.in_domain [Return Scripted.v11]) in
  let w' := {| remote := Scripted.in_domain [];
               calls := [EmbeddingsCall "reset my password";
                         DatabaseQuery None] |} in
  let s := S754_finite false 8916672341536081 (-53) in
  find_best_match (C := Scripted.earliest) db "reset my password"
    (PyFloat.decimal 5 10) None w
  = (Return (Some Scripted.faq_reset, s, true), w').
Proof.
  intros db w w' s.
  apply (gate_monotone (C := Scripted.earliest) db "reset my password"
           (PyFloat.decimal 85 100) (PyFloat.decimal 5 10) None w w').
  - vm_compute. reflexivity.
  - vm_compute. reflexivity.
Defined.

Lemma wait_exponential_bounds_witness :
  let wait :=
    wait_exponential RETRY_MULTIPLIER RETRY_MIN_WAIT RETRY_MAX_WAIT in
  RETRY_MIN_WAIT <= wait 3 <= RETRY_MAX_WAIT
  /\ wait 3 <= wait (3 + 1)
  /\ (5 <= 3 -> wait 3 = RETRY_MAX_WAIT).
Proof.
  apply (wait_exponential_bounds 3). lia.
Defined.

(** * Authentication *)

Lemma prefix_append (p s : string) : String.prefix p (p ++ s) = true.
Proof.
  induction p as [|c p IH]; cbn [String.append String.prefix].
  - now destruct s.
  - destruct (Z.eqb_spec c c) as [_|N]; [exact IH | now elim N].
Qed.

Lemma prefix_slice_from (p s : string) :
  String.prefix p s = true ->
  s = (p ++ Auth.slice_from (String.length p) s)%string.
Proof.
  revert s. induction p as [|c p IH]; intros s H.
  - reflexivity.
  - destruct s as [|d s]; cbn [String.prefix] in H; [discriminate|].
    destruct (Z.eqb_spec c d) as [->|]; [|discriminate].
    cbn [String.length Auth.slice_from String.append].
    now rewrite <- (IH s H).
Qed.

Lemma slice_from_append (p s : string) :
  Auth.slice_from (String.length p) (p ++ s) = s.
Proof.
  induction p as [|c p IH]; cbn [String.length String.append Auth.slice_from];
    [reflexivity | exact IH].
Qed.

Lemma append_length (p s : string) :
  String.length (p ++ s) = (String.length p + String.length s)%nat.
Proof.
  induction p as [|c p IH]; cbn [String.append String.length];
    [reflexivity | now rewrite IH].
Qed.

Lemma eqb_append_false (c : Z) (p s : string) :
  String.eqb (String c p ++ s) s = false.
Proof.
  apply string_eqb_neq. intros E.
  apply (f_equal String.length) in E. rewrite append_length in E.
  cbn [String.length] in E. lia.
Qed.

(** X12.  A header is accepted exactly when it is the secret behind the
    prefix [Bearer ], or the bare secret while the secret does not itself
    start with [Bearer ]; the token returned is then the secret.  A secret
    that starts with [Bearer ] is therefore refused when sent bare. *)
Theorem get_token_accepts_iff (secret key token : string) :
  Auth.get_token secret (Some key) = inr token
  <-> token = secret
      /\ (key = ("Bearer " ++ secret)%string
          \/ (key = secret /\ Auth.startswith "Bearer " secret = false)).
Proof.
  unfold Auth.get_token.
  destruct (Auth.startswith "Bearer " key) eqn:E.
  - pose proof (prefix_slice_from "Bearer " key E) as Hk.
    change (String.length "Bearer ") with 7%nat in Hk.
    destruct (string_eqb_spec (Auth.slice_from 7 key) secret) as [Hs|Hs];
      cbn [negb].
    + split.
      * intros H. injection H as <-. split; [exact Hs|].
        left. now rewrite <- Hs.
      * intros [-> _]. now rewrite Hs.
    + split; [discriminate|].
      intros [_ [Hk'|[Hk' Hp]]].
      * elim Hs. rewrite Hk'.
        exact (slice_from_append "Bearer " secret).
      * rewrite Hk' in E. congruence.
  - destruct (string_eqb_spec key secret) as [Hs|Hs]; cbn [negb].
    + split.
      * intros H. injection H as <-. split; [exact Hs|].
        right. split; [exact Hs | now rewrite <- Hs].
      * intros [-> _]. now rewrite Hs.
    + split; [discriminate|].
      intros [_ [Hk'|[Hk' _]]]; [|contradiction].
      rewrite Hk' in E. unfold Auth.startswith in E.
      now rewrite prefix_append in E.
Qed.

(** X13.  [get_token] has two outcomes: the configured secret, or status
    401 with the header [WWW-Authenticate: Bearer].  The detail of the
    refusal tells a missing header from a wrong key and nothing else. *)
Theorem get_token_outcomes (secret : string) (key : option string) :
  match Auth.get_token secret key with
  | inr token => token = secret /\ key <> None
  | inl e =>
      Auth.status_code e = 401
      /\ Auth.headers e = [("WWW-Authenticate", "Bearer")]
      /\ match key with
         | None =>
             Auth.detail e
             = "Missing API key. Provide it in the 'Authorization' header."
         | Some _ => Auth.detail e = "Invalid API key"
         end
  end.
Proof.
  unfold Auth.get_token. destruct key as [key|]; [|repeat split].
  destruct (Auth.startswith "Bearer " key).
  - destruct (string_eqb_spec (Auth.slice_from 7 key) secret);
      cbn [negb]; [split; [assumption|discriminate] | repeat split].
  - destruct (string_eqb_spec key secret);
      cbn [negb]; [split; [assumption|discriminate] | repeat split].
Qed.

(** X14.  The prefix is taken off once and is case-sensitive: whatever the
    secret, the headers [Bearer Bearer <secret>] and [bearer <secret>] are
    refused as invalid. *)
Theorem bearer_prefix_once (secret : string) :
  Auth.get_token secret (Some ("Bearer Bearer " ++ secret)%string)
  = inl (Auth.unauthorized "Invalid API key")
  /\ Auth.get_token secret (Some ("bearer " ++ secret)%string)
     = inl (Auth.unauthorized "Invalid API key").
Proof.
  unfold Auth.get_token, Auth.startswith. split.
  - change ("Bearer Bearer " ++ secret)%string
      with ("Bearer " ++ ("Bearer " ++ secret))%string.
    rewrite prefix_append.
    change 7%nat with (String.length "Bearer ").
    rewrite slice_from_append.
    change ("Bearer " ++ secret)%string
      with (String 66 "earer " ++ secret)%string.
    now rewrite eqb_append_false.
  - change (String.prefix "Bearer " ("bearer " ++ secret)) with false.
    cbv iota.
    change ("bearer " ++ secret)%string
      with (String 98 "earer " ++ secret)%string.
    now rewrite eqb_append_false.
Qed.

(** * The health endpoint *)

(** X15.  [health_check] answers whatever the database does: it reports
    [healthy] with [connected] when the probe query returns and
    [unhealthy] with [disconnected] when it raises, always with version
    [1.0.0]. *)
Theorem health_check_reports (select_1 : Outcome unit) :
  let response := Health.health_check select_1 in
  Health.version response = "1.0.0"
  /\ ((exists u, select_1 = Return u)
      <-> Health.status response = "healthy")
  /\ (Health.status response = "healthy"
      <-> Health.database response = "connected")
  /\ (Health.status response = "unhealthy"
      <-> Health.database response = "disconnected")
  /\ (Health.status response = "healthy"
      \/ Health.status response = "unhealthy").
Proof.
  destruct select_1 as [u|e]; cbn.
  - repeat split; try discriminate; eauto.
  - repeat split; try discriminate; eauto.
    intros [u H]. discriminate H.
Qed.

(** * Start-up *)

(** X16.  Three embedding models are supported, two with 1536 dimensions
    and one with 3072; for any other name, reading the dimension raises a
    [ValueError]. *)
Theorem embedding_dimension_supported (embedding_model : string) :
  match Startup.embedding_dimension embedding_model with
  | Startup.Done dimension =>
      (embedding_model = "text-embedding-3-small" /\ dimension = 1536)
      \/ (embedding_model = "text-embedding-3-large" /\ dimension = 3072)
      \/ (embedding_model = "text-embedding-ada-002" /\ dimension = 1536)
  | Startup.Failed e =>
      (exists message, e = Startup.ValueError message)
      /\ embedding_model <> "text-embedding-3-small"
      /\ embedding_model <> "text-embedding-3-large"
      /\ embedding_model <> "text-embedding-ada-002"
  end.
Proof.
  unfold Startup.embedding_dimension, Startup.EMBEDDING_DIMENSIONS.
  cbn [Startup.get].
  destruct (string_eqb_spec "text-embedding-3-small" embedding_model)
    as [<-|N1]; [tauto|].
  destruct (string_eqb_spec "text-embedding-3-large" embedding_model)
    as [<-|N2]; [tauto|].
  destruct (string_eqb_spec "text-embedding-ada-002" embedding_model)
    as [<-|N3]; [tauto|].
  split; [eexists; reflexivity|]. repeat split; congruence.
Qed.

Lemma unsupported_is_ValueError (embedding_model : string) :
  match Startup.embedding_dimension embedding_model with
  | Startup.Done _ => True
  | Startup.Failed e => exists message, e = Startup.ValueError message
  end.
Proof.
  unfold Startup.embedding_dimension.
  destruct (Startup.get embedding_model Startup.EMBEDDING_DIMENSIONS);
    [exact I | eexists; reflexivity].
Qed.

(** X17.  Start-up either goes through or stops with a [ValueError].  It
    stops exactly when the configured model is not supported, or reading
    the stored dimension raised a [ValueError], or a positive stored
    dimension differs from the model's.  Whether [init_db] failed plays no
    part, and neither does any other failure of the reading, a missing
    row, or a stored dimension that is not positive. *)
Theorem startup_refused_iff (embedding_model : string)
  (init_db : Startup.Result unit) (row : Startup.Result (option Z)) :
  (Startup.lifespan_startup embedding_model init_db row = Startup.Done tt
   \/ exists message,
        Startup.lifespan_startup embedding_model init_db row
        = Startup.Failed (Startup.ValueError message))
  /\ ((exists e,
         Startup.lifespan_startup embedding_model init_db row
         = Startup.Failed e)
      <-> (forall d,
             Startup.embedding_dimension embedding_model <> Startup.Done d)
          \/ (exists message,
                row = Startup.Failed (Startup.ValueError message))
          \/ (exists d,
                row = Startup.Done (Some d) /\ 0 < d
                /\ Startup.embedding_dimension embedding_model
                   <> Startup.Done d)).
Proof.
  pose proof (unsupported_is_ValueError embedding_model) as Hd.
  unfold Startup.lifespan_startup, Startup.validate_dimension.
  destruct (Startup.embedding_dimension embedding_model) as [c|e] eqn:E.
  - assert (Hi : match init_db with
                 | Startup.Done _ | Startup.Failed _ =>
                     match
                       match row with
                       | Startup.Failed e => Startup.Failed e
                       | Startup.Done None => Startup.Done tt
                       | Startup.Done (Some atttypmod) =>
                           if 0 <? atttypmod then
                             if negb (atttypmod =? c) then
                               Startup.Failed
                                 (Startup.ValueError
                                    (Startup.mismatch_message atttypmod
                                       embedding_model c))
                             else Startup.Done tt
                           else Startup.Done tt
                       end
                     with
                     | Startup.Failed (Startup.ValueError message) =>
                         Startup.Failed (Startup.ValueError message)
                     | Startup.Failed (Startup.OtherError _) =>
                         Startup.Done tt
                     | Startup.Done _ => Startup.Done tt
                     end
                 end
                 = match row with
                   | Startup.Failed (Startup.ValueError message) =>
                       Startup.Failed (Startup.ValueError message)
                   | Startup.Done (Some d) =>
                       if (0 <? d) && negb (d =? c) then
                         Startup.Failed
                           (Startup.ValueError
                              (Startup.mismatch_message d embedding_model c))
                       else Startup.Done tt
                   | _ => Startup.Done tt
                   end).
    { destruct init_db, row as [[d|]|[m|m]]; try reflexivity;
        destruct (0 <? d), (d =? c); reflexivity. }
    rewrite Hi. clear Hi.
    destruct row as [[d|]|[m|m]].
    + destruct (0 <? d) eqn:Ep; destruct (d =? c) eqn:Ec; cbn [andb negb].
      * apply Z.eqb_eq in Ec. subst c. split; [now left|].
        split; [intros [e H]; discriminate H|].
        intros [H|[[m H]|(d' & H & _ & N)]];
          [elim (H d); reflexivity | discriminate H |].
        injection H as <-. now elim N.
      * split; [right; eexists; reflexivity|].
        split; [|eexists; reflexivity].
        intros _. right; right. exists d.
        apply Z.ltb_lt in Ep. apply Z.eqb_neq in Ec.
        repeat split; [assumption|]. congruence.
      * split; [now left|].
        split; [intros [e H]; discriminate H|].
        intros [H|[[m H]|(d' & H & Hp & _)]];
          [elim (H c); reflexivity | discriminate H |].
        injection H as <-. apply Z.ltb_ge in Ep. lia.
      * split; [now left|].
        split; [intros [e H]; discriminate H|].
        intros [H|[[m H]|(d' & H & Hp & _)]];
          [elim (H c); reflexivity | discriminate H |].
        injection H as <-. apply Z.ltb_ge in Ep. lia.
    + split; [now left|].
      split; [intros [e H]; discriminate H|].
      intros [H|[[m H]|(d' & H & _)]];
        [elim (H c); reflexivity | discriminate H | discriminate H].
    + split; [right; eexists; reflexivity|].
      split; [|eexists; reflexivity].
      intros _. right; left. now exists m.
    + split; [now left|].
      split; [intros [e H]; discriminate H|].
      intros [H|[[m' H]|(d' & H & _)]];
        [elim (H c); reflexivity | discriminate H | discriminate H].
  - destruct Hd as [m ->].
    split; [right; eexists; reflexivity|].
    split; [|eexists; reflexivity].
    intros _. left. intros d. discriminate.
Qed.

(** * Background tasks and the embedding scripts *)

Lemma same_entry_refl (a : FAQ) : same_entry a a.
Proof. repeat split. Qed.

Lemma same_entry_with_embedding (a : FAQ) (v : Vector) :
  same_entry a (with_embedding a v).
Proof. repeat split. Qed.


Lemma Forall2_same_entry_refl (rows : list FAQ) : Forall2 same_entry rows rows.
Proof.
  induction rows; constructor; [apply same_entry_refl | assumption].
Qed.


Lemma kept_or_embedded_same_entry (selected : FAQ -> bool) (a b : FAQ) :
  kept_or_embedded selected a b -> same_entry a b.
Proof.
  intros [->|(_ & v & ->)];
    [apply same_entry_refl | apply same_entry_with_embedding].
Qed.

Lemma Forall2_kept_refl (selected : FAQ -> bool) (rows : list FAQ) :
  Forall2 (kept_or_embedded selected) rows rows.
Proof.
  induction rows; constructor; [now left | assumption].
Qed.

Lemma Forall2_kept_same_entry (selected : FAQ -> bool) (r1 r2 : list FAQ) :
  Forall2 (kept_or_embedded selected) r1 r2 -> Forall2 same_entry r1 r2.
Proof.
  induction 1; constructor;
    [eapply kept_or_embedded_same_entry; eassumption | assumption].
Qed.

Lemma set_embedding_kept (question_id : Z) (v : Vector)
  (rows rows' : list FAQ) :
  set_embedding question_id v rows = Some rows' ->
  Forall2 (kept_or_embedded (fun faq => id faq =? question_id)) rows rows'.
Proof.
  revert rows'. induction rows as [|faq rows IH]; intros rows' H;
    cbn [set_embedding] in H; [discriminate|].
  destruct (id faq =? question_id) eqn:E.
  - injection H as <-. constructor; [|apply Forall2_kept_refl].
    right. split; [exact E|]. now exists v.
  - destruct (set_embedding question_id v rows) as [r|]; [|discriminate].
    injection H as <-. constructor; [now left | now apply IH].
Qed.

Lemma set_embedding_none (question_id : Z) (v : Vector) (rows : list FAQ) :
  (forall faq, In faq rows -> id faq <> question_id) ->
  set_embedding question_id v rows = None.
Proof.
  induction rows as [|faq rows IH]; intros H; cbn [set_embedding];
    [reflexivity|].
  destruct (Z.eqb_spec (id faq) question_id) as [E|_].
  - elim (H faq (or_introl eq_refl) E).
  - rewrite IH; [reflexivity|]. intros f Hf. apply H. now right.
Qed.

Lemma count_calls_app (p : Call -> bool) (l1 l2 : list Call) :
  count_calls p (l1 ++ l2) = (count_calls p l1 + count_calls p l2)%nat.
Proof.
  unfold count_calls. induction l1 as [|c l1 IH]; cbn [app filter];
    [reflexivity|].
  destruct (p c); cbn [List.length]; now rewrite IH.
Qed.

Lemma slept_app (l1 l2 : list Call) : slept (l1 ++ l2) = slept l1 + slept l2.
Proof.
  induction l1 as [|c l1 IH]; cbn [app slept]; [reflexivity|].
  destruct c; rewrite IH; lia.
Qed.

(** What the calls of a run of the scripts look like: attempts at the
    embeddings API on questions of selected rows, two seconds apart. *)
Lemma embedding_attempts_shape (text : string) (k : nat) :
  (1 <= k <= 3)%nat ->
  count_calls is_embeddings_call (embedding_attempts text k) = k
  /\ slept (embedding_attempts text k) <= 4
  /\ Forall (fun c => c = Sleep 2 \/ c = EmbeddingsCall text)
       (embedding_attempts text k).
Proof.
  intros Hk.
  assert (H : k = 1%nat \/ k = 2%nat \/ k = 3%nat) by lia.
  destruct H as [->|[->| ->]]; cbn; repeat split; try lia;
    repeat constructor; tauto.
Qed.

Section MaintenanceProperties.

Context {Remote : Type} {C : Collaborators Remote}.

Lemma embed_row_spec (faq : FAQ) (w : World Remote) :
  exists faq' w' k,
    embed_row faq w = (Return faq', w')
    /\ (faq' = faq \/ exists v, faq' = with_embedding faq v)
    /\ (1 <= k <= 3)%nat
    /\ calls w' = calls w ++ embedding_attempts (question faq) k.
Proof.
  destruct (generate_embedding_log (question faq) w) as (k & Hk & Hlog & _).
  unfold embed_row, try_except, bind, ret.
  destruct (generate_embedding (question faq) w) as [[v|e] w1];
    cbn [snd] in Hlog.
  - exists (with_embedding faq v), w1, k. repeat split; eauto; lia.
  - exists faq, w1, k. repeat split; eauto; lia.
Qed.

Lemma embed_rows_spec (selected : FAQ -> bool) (rows : list FAQ)
  (w : World Remote) :
  exists rows' w' log,
    embed_rows selected rows w = (Return rows', w')
    /\ Forall2 (kept_or_embedded selected) rows rows'
    /\ calls w' = calls w ++ log
    /\ (count_calls is_embeddings_call log
        <= 3 * List.length (filter selected rows))%nat
    /\ slept log <= 4 * Z.of_nat (List.length (filter selected rows))
    /\ Forall (fun c =>
                 c = Sleep 2
                 \/ exists faq, In faq rows /\ selected faq = true
                                /\ c = EmbeddingsCall (question faq)) log.
Proof.
  revert w. induction rows as [|faq rows IH]; intros w.
  - exists [], w, []. cbn. rewrite app_nil_r.
    repeat split; try constructor; lia.
  - cbn [embed_rows filter]. unfold bind at 1.
    destruct (selected faq) eqn:Es.
    + destruct (embed_row_spec faq w) as (faq' & w1 & k & E1 & Hf & Hk & Hl).
      rewrite E1.
      destruct (IH w1) as (rows' & w2 & log & E2 & HF & Hl2 & Hc & Hs & Hall).
      unfold bind. rewrite E2. cbn [ret].
      destruct (embedding_attempts_shape (question faq) k Hk)
        as (Kc & Ks & Kall).
      exists (faq' :: rows'), w2,
        (embedding_attempts (question faq) k ++ log).
      split; [reflexivity|]. split.
      { constructor; [|exact HF].
        destruct Hf as [->|[v ->]]; [now left|].
        right. split; [exact Es | now exists v]. }
      split; [rewrite Hl2, Hl; now rewrite app_assoc|].
      rewrite count_calls_app, slept_app, Kc. cbn [List.length].
      split; [lia|]. split; [lia|].
      apply Forall_app. split.
      * eapply Forall_impl; [|exact Kall].
        intros c [->| ->]; [now left|].
        right. exists faq. repeat split; [now left | exact Es].
      * eapply Forall_impl; [|exact Hall].
        intros c [->|(f & Hin & Hsel & ->)]; [now left|].
        right. exists f. repeat split; [now right | exact Hsel].
    + unfold ret at 1.
      destruct (IH w) as (rows' & w2 & log & E2 & HF & Hl2 & Hc & Hs & Hall).
      unfold bind. rewrite E2. cbn [ret].
      exists (faq :: rows'), w2, log.
      split; [reflexivity|]. split; [constructor; [now left | exact HF]|].
      split; [exact Hl2|]. split; [exact Hc|]. split; [exact Hs|].
      eapply Forall_impl; [|exact Hall].
      intros c [->|(f & Hin & Hsel & ->)]; [now left|].
      right. exists f. repeat split; [now right | exact Hsel].
Qed.

Lemma embed_rows_ext (p q : FAQ -> bool) (rows : list FAQ)
  (w : World Remote) :
  (forall faq, p faq = q faq) ->
  embed_rows p rows w = embed_rows q rows w.
Proof.
  intros H. revert w. induction rows as [|faq rows IH]; intros w;
    [reflexivity|].
  cbn [embed_rows]. unfold bind. rewrite (H faq).
  destruct ((if q faq then embed_row faq else ret faq) w) as [[f|e] w1];
    [|reflexivity].
  now rewrite IH.
Qed.

End MaintenanceProperties.

Section ScriptsAndTasks.

Context {Remote : Type} {C : Collaborators Remote}.

Lemma needs_update_without_force (faq : FAQ) :
  needs_update false faq = without_embedding None faq.
Proof.
  unfold needs_update, without_embedding.
  now destruct (lacks_embedding faq).
Qed.

(** X18.  [create_embeddings] never raises on an embedding failure, and
    whatever its mode it changes nothing but embeddings of selected rows:
    the table keeps its rows in place with their id, question, answer and
    collection; a row that had an embedding, or lies outside the named
    collection, is left exactly as it was. *)
Theorem create_embeddings_touches_selected_only (dry_run use_async : bool)
  (name : option string) (db : Session) (w : World Remote) :
  exists db' tasks w',
    create_embeddings dry_run name use_async db w = (Return (db', tasks), w')
    /\ Forall2 (kept_or_embedded (without_embedding name))
         (faqs db) (faqs db')
    /\ Forall2 same_entry (faqs db) (faqs db').
Proof.
  unfold create_embeddings.
  destruct (embed_rows_spec (without_embedding name) (faqs db) w)
    as (rows' & w' & log & E & HF & _).
  destruct (filter (without_embedding name) (faqs db)) as [|f l];
    [|destruct dry_run; [|destruct use_async]].
  1-3: do 3 eexists; (split; [reflexivity|]);
       split; [apply Forall2_kept_refl | apply Forall2_same_entry_refl].
  unfold bind. rewrite E. cbn [ret].
  exists {| faqs := rows' |}, [], w'.
  split; [reflexivity|]. cbn [faqs].
  split; [exact HF | exact (Forall2_kept_same_entry _ _ _ HF)].
Qed.

(** X19.  A dry run of either script, and a run in asynchronous mode, make
    no call to the embeddings API and leave the database as it is.  A dry
    run queues nothing; the asynchronous mode queues one task per selected
    row, in order, carrying the row's id and question. *)
Theorem dry_run_and_queueing_are_silent (name : option string)
  (force use_async : bool) (db : Session) (w : World Remote) :
  create_embeddings true name use_async db w = (Return (db, []), w)
  /\ update_embeddings true force use_async db w = (Return (db, []), w)
  /\ create_embeddings false name true db w
     = (Return (db, map task_for
                      (filter (without_embedding name) (faqs db))), w)
  /\ update_embeddings false force true db w
     = (Return (db, map task_for
                      (filter (needs_update force) (faqs db))), w).
Proof.
  unfold create_embeddings, update_embeddings.
  repeat split.
  - now destruct (filter (without_embedding name) (faqs db)).
  - destruct (faqs db) as [|f l]; [reflexivity|].
    now destruct (filter (needs_update force) (f :: l)).
  - now destruct (filter (without_embedding name) (faqs db)).
  - destruct (faqs db) as [|f l]; [reflexivity|].
    now destruct (filter (needs_update force) (f :: l)).
Qed.

(** X20.  Without [force], [update_embeddings] is [create_embeddings] with
    no collection named: same database afterwards, same tasks queued, same
    calls, in every mode. *)
Theorem update_without_force_is_create (dry_run use_async : bool)
  (db : Session) (w : World Remote) :
  update_embeddings dry_run false use_async db w
  = create_embeddings dry_run None use_async db w.
Proof.
  unfold update_embeddings, create_embeddings.
  destruct (faqs db) as [|f l] eqn:E; [reflexivity|].
  rewrite (filter_ext _ _ needs_update_without_force (f :: l)).
  destruct (filter (without_embedding None) (f :: l)); [reflexivity|].
  destruct dry_run; [reflexivity|]. destruct use_async; [reflexivity|].
  unfold bind.
  now rewrite (embed_rows_ext _ _ (f :: l) w needs_update_without_force).
Qed.

(** X21.  No run of [update_embeddings] loses an embedding: a row that is
    without embedding afterwards was without before and is unchanged, so a
    regeneration that fails under [force] keeps the old vector.  Without
    [force], a row that had an embedding is left exactly as it was. *)
Theorem update_embeddings_never_loses (dry_run force use_async : bool)
  (db : Session) (w : World Remote) :
  exists db' tasks w',
    update_embeddings dry_run force use_async db w
    = (Return (db', tasks), w')
    /\ Forall2
         (fun a b =>
            same_entry a b
            /\ (lacks_embedding b = true -> b = a)
            /\ (force = false -> lacks_embedding a = false -> b = a))
         (faqs db) (faqs db').
Proof.
  assert (Hrefl : forall rows : list FAQ,
            Forall2
              (fun a b =>
                 same_entry a b
                 /\ (lacks_embedding b = true -> b = a)
                 /\ (force = false -> lacks_embedding a = false -> b = a))
              rows rows).
  { induction rows; constructor; [|assumption].
    split; [apply same_entry_refl|]. split; reflexivity. }
  unfold update_embeddings.
  destruct (embed_rows_spec (needs_update force) (faqs db) w)
    as (rows' & w' & log & E & HF & _).
  destruct (faqs db) as [|f l] eqn:Efaqs.
  { do 3 eexists. split; [reflexivity|]. rewrite Efaqs. apply Hrefl. }
  destruct (filter (needs_update force) (f :: l)) as [|f0 l0];
    [|destruct dry_run; [|destruct use_async]].
  1-3: do 3 eexists; (split; [reflexivity|]); rewrite Efaqs; apply Hrefl.
  unfold bind. rewrite E. cbn [ret].
  exists {| faqs := rows' |}, [], w'.
  split; [reflexivity|]. cbn [faqs].
  eapply Forall2_impl; [|exact HF].
  intros a b [-> | (Hsel & v & ->)].
  - split; [apply same_entry_refl|]. split; reflexivity.
  - split; [apply same_entry_with_embedding|]. split.
    + discriminate.
    + intros -> Ha. unfold needs_update in Hsel. rewrite Ha in Hsel.
      discriminate Hsel.
Qed.

(** X22.  A synchronous run of [create_embeddings] calls nothing but the
    embeddings API, on questions of rows it selected, at most three times
    per selected row, and sleeps at most four seconds per selected row. *)
Theorem create_embeddings_budget (name : option string) (db : Session)
  (w : World Remote) :
  let selected := filter (without_embedding name) (faqs db) in
  exists log,
    calls (snd (create_embeddings false name false db w)) = calls w ++ log
    /\ (count_calls is_embeddings_call log <= 3 * List.length selected)%nat
    /\ slept log <= 4 * Z.of_nat (List.length selected)
    /\ Forall (fun c =>
                 c = Sleep 2
                 \/ exists faq, In faq selected
                                /\ c = EmbeddingsCall (question faq)) log.
Proof.
  intros selected. unfold create_embeddings.
  destruct (embed_rows_spec (without_embedding name) (faqs db) w)
    as (rows' & w' & log & E & _ & Hl & Hc & Hs & Hall).
  fold selected in Hc, Hs |- *.
  destruct selected as [|f l] eqn:Esel.
  - exists []. cbn. rewrite app_nil_r.
    repeat split; try constructor; lia.
  - unfold bind. rewrite E. cbn [ret snd].
    exists log. split; [exact Hl|]. split; [exact Hc|]. split; [exact Hs|].
    eapply Forall_impl; [|exact Hall].
    intros c [-> | (faq & Hin & Hsel & ->)]; [now left|].
    right. exists faq. split; [|reflexivity].
    rewrite <- Esel. unfold selected. apply filter_In. now split.
Qed.

(** X23.  The task [generate_embedding_async] never raises.  It reports
    success only after writing the new embedding into the first row with
    the given id; on any error, a failed embedding included, the database
    is left as it was.  Either way every row keeps its id, question, answer
    and collection. *)
Theorem generate_embedding_async_outcomes (question_id : Z)
  (question_text : string) (db : Session) (w : World Remote) :
  exists result db' w',
    generate_embedding_async question_id question_text db w
    = (Return (result, db'), w')
    /\ ((result = TaskSuccess question_id
         /\ exists v, set_embedding question_id v (faqs db)
                      = Some (faqs db'))
        \/ (exists message, result = TaskError message) /\ db' = db)
    /\ Forall2 same_entry (faqs db) (faqs db').
Proof.
  unfold generate_embedding_async, try_except, bind, ret.
  destruct (generate_embedding question_text w) as [[v|e] w1].
  - destruct (set_embedding question_id v (faqs db)) as [rows|] eqn:E.
    + do 3 eexists. split; [reflexivity|]. cbn [faqs]. split.
      * left. split; [reflexivity|]. now exists v.
      * eapply Forall2_kept_same_entry, set_embedding_kept, E.
    + do 3 eexists. split; [reflexivity|]. split.
      * right. split; [eexists; reflexivity | reflexivity].
      * apply Forall2_same_entry_refl.
  - do 3 eexists. split; [reflexivity|]. split.
    + right. split; [eexists; reflexivity | reflexivity].
    + apply Forall2_same_entry_refl.
Qed.

(** X24.  The task asks for the embedding before it looks the row up: for
    an id no row has, it still makes one to three attempts at the
    embeddings API, then reports an error and leaves the database as it
    was. *)
Theorem unknown_id_still_embedded (question_id : Z) (question_text : string)
  (db : Session) (w : World Remote) :
  (forall faq, In faq (faqs db) -> id faq <> question_id) ->
  exists message w' k,
    generate_embedding_async question_id question_text db w
    = (Return (TaskError message, db), w')
    /\ (1 <= k <= 3)%nat
    /\ calls w' = calls w ++ embedding_attempts question_text k.
Proof.
  intros Hid.
  destruct (generate_embedding_log question_text w) as (k & Hk & Hlog & _).
  unfold generate_embedding_async, try_except, bind, ret.
  destruct (generate_embedding question_text w) as [[v|e] w1];
    cbn [snd] in Hlog.
  - rewrite (set_embedding_none question_id v (faqs db) Hid).
    exists "FAQ not found", w1, k. repeat split; [lia | lia | exact Hlog].
  - exists (str_exn e), w1, k. repeat split; [lia | lia | exact Hlog].
Qed.



End ScriptsAndTasks.

Lemma unknown_id_still_embedded_witness :
  let db := {| faqs := [Scripted.faq_reset; Scripted.faq_pending] |} in
  let w := Scripted.start
             (Scripted.in_domain [Raise (Exception "Request timed out.");
                                  Return Scripted.v11]) in
  exists message w' k,
    generate_embedding_async (C := Scripted.earliest) 7 "delete account"
      db w
    = (Return (TaskError message, db), w')
    /\ (1 <= k <= 3)%nat
    /\ calls w' = calls w ++ embedding_attempts "delete account" k.
Proof.
  intros db w.
  apply (unknown_id_still_embedded (C := Scripted.earliest) 7
           "delete account" db w).
  intros faq [<- | [<- | []]]; vm_compute; discriminate.
Defined.

Section Convergence.

Context {Remote : Type} {C : Collaborators Remote}.

Hypothesis embeddings_answer :
  forall text s, exists v s', embeddings_create text s = (Return v, s').

Lemma embed_row_answers (faq : FAQ) (w : World Remote) :
  exists v w', embed_row faq w = (Return (with_embedding faq v), w').
Proof.
  destruct (embeddings_answer (question faq) (remote w)) as (v & s' & E).
  unfold embed_row, try_except, bind, ret.
  rewrite generate_embedding_eq. unfold remote_call. rewrite E.
  now do 2 eexists.
Qed.

Lemma embed_rows_answers (selected : FAQ -> bool) (rows : list FAQ)
  (w : World Remote) :
  exists rows' w',
    embed_rows selected rows w = (Return rows', w')
    /\ Forall (fun faq => selected faq = false
                          \/ lacks_embedding faq = false) rows'
    /\ (forall p : FAQ -> bool,
          (forall faq v, p (with_embedding faq v) = false) ->
          (forall faq, selected faq = false -> p faq = false) ->
          filter p rows' = []).
Proof.
  revert w. induction rows as [|faq rows IH]; intros w.
  - exists [], w. repeat split; constructor.
  - cbn [embed_rows]. unfold bind at 1.
    destruct (selected faq) eqn:Es.
    + destruct (embed_row_answers faq w) as (v & w1 & E1). rewrite E1.
      destruct (IH w1) as (rows' & w2 & E2 & HF & Hp).
      unfold bind. rewrite E2. cbn [ret].
      exists (with_embedding faq v :: rows'), w2.
      split; [reflexivity|]. split; [constructor; [now right | exact HF]|].
      intros p H1 H2. cbn [filter]. rewrite H1. now apply Hp.
    + unfold ret at 1.
      destruct (IH w) as (rows' & w2 & E2 & HF & Hp).
      unfold bind. rewrite E2. cbn [ret].
      exists (faq :: rows'), w2.
      split; [reflexivity|]. split; [constructor; [now left | exact HF]|].
      intros p H1 H2. cbn [filter]. rewrite (H2 faq Es). now apply Hp.
Qed.

(** X26.  When the embeddings API answers every call, one synchronous run
    of [create_embeddings] leaves no selected row without embedding, and a
    second run finds nothing to do: it changes nothing and calls
    nothing. *)
Theorem create_embeddings_converges (name : option string) (db : Session)
  (w : World Remote) :
  exists db' w',
    create_embeddings false name false db w = (Return (db', []), w')
    /\ filter (without_embedding name) (faqs db') = []
    /\ create_embeddings false name false db' w' = (Return (db', []), w').
Proof.
  assert (Hdone : forall (d : Session) (u : World Remote),
            filter (without_embedding name) (faqs d) = [] ->
            create_embeddings false name false d u = (Return (d, []), u)).
  { intros d u H. unfold create_embeddings. now rewrite H. }
  destruct (filter (without_embedding name) (faqs db)) as [|f l] eqn:Ef.
  - exists db, w. now rewrite (Hdone db w Ef).
  - destruct (embed_rows_answers (without_embedding name) (faqs db) w)
      as (rows' & w' & E & _ & Hp).
    assert (Hnone : filter (without_embedding name) rows' = []).
    { apply Hp; [|tauto]. intros faq v. reflexivity. }
    exists {| faqs := rows' |}, w'. split; [|split].
    + unfold create_embeddings. rewrite Ef. unfold bind. now rewrite E.
    + exact Hnone.
    + now apply Hdone.
Qed.

End Convergence.

Lemma create_embeddings_converges_witness :
  let db := {| faqs := [Scripted.faq_reset; Scripted.faq_pending] |} in
  let w := {| remote := tt; calls := [] |} in
  exists db' w',
    create_embeddings (C := steady) false None false db w
    = (Return (db', []), w')
    /\ filter (without_embedding None) (faqs db') = []
    /\ create_embeddings (C := steady) false None false db' w'
       = (Return (db', []), w').
Proof.
  intros db w.
  apply (create_embeddings_converges (C := steady)).
  intros text s. exists Scripted.v11, s. reflexivity.
Defined.

(** * Whitespace around the question *)

Lemma strip_idempotent (s : string) : strip (strip s) = strip s.
Proof.
  unfold strip.
  destruct (lstrip s) as [|c t] eqn:E; [reflexivity|].
  assert (Hs : starts_nonspace (rstrip (String c t)) = true).
  { apply rstrip_starts_nonspace. rewrite <- E.
    apply lstrip_starts_nonspace. rewrite E. discriminate. }
  rewrite (strip_idempotent_aux _ Hs). apply rstrip_idempotent.
Qed.

(** X27.  Whitespace around the question never changes what the endpoint
    does: on the question as sent and on the stripped question it gives the
    same outcome and makes the same calls. *)
Theorem surrounding_whitespace_ignored {Remote : Type}
  {C : Collaborators Remote} (raw : string) (db : Session)
  (w : World Remote) :
  ask_question {| user_question := strip raw |} db w
  = ask_question {| user_question := raw |} db w.
Proof.
  unfold ask_question. cbn [user_question].
  now rewrite strip_idempotent.
Qed.

(** * A queued task and its row *)

Lemma map_other_ids (question_id : Z) (v : Vector) (rows : list FAQ) :
  ~ In question_id (map id rows) ->
  map (fun a => if id a =? question_id then with_embedding a v else a) rows
  = rows.
Proof.
  induction rows as [|a rows IH]; intros H; cbn [map]; [reflexivity|].
  cbn [map In] in H.
  destruct (Z.eqb_spec (id a) question_id) as [E|_]; [tauto|].
  rewrite IH; [reflexivity | tauto].
Qed.

Lemma set_embedding_unique (faq : FAQ) (v : Vector) (rows : list FAQ) :
  In faq rows -> NoDup (map id rows) ->
  set_embedding (id faq) v rows
  = Some (map (fun a => if id a =? id faq then with_embedding a v else a)
            rows).
Proof.
  induction rows as [|a rows IH]; intros Hin Hnd; [destruct Hin|].
  cbn [map] in Hnd. inversion Hnd as [|x l Hx Hnd']. subst.
  cbn [set_embedding map].
  destruct (Z.eqb_spec (id a) (id faq)) as [E|N].
  - rewrite (map_other_ids (id faq) v rows); [reflexivity | now rewrite <- E].
  - destruct Hin as [->|Hin]; [now elim N|].
    now rewrite (IH Hin Hnd').
Qed.

(** X28.  With ids that are unique, the task queued for a row finds that
    row: once the embedding is obtained it reports success, and the
    database differs from before in the embedding of that row only. *)
Theorem queued_task_embeds_its_row {Remote : Type}
  {C : Collaborators Remote} (faq : FAQ) (db : Session)
  (w w1 : World Remote) (v : Vector) :
  In faq (faqs db) ->
  NoDup (map id (faqs db)) ->
  generate_embedding (question faq) w = (Return v, w1) ->
  generate_embedding_async (fst (task_for faq)) (snd (task_for faq)) db w
  = (Return (TaskSuccess (id faq),
             {| faqs := map (fun a => if id a =? id faq
                                      then with_embedding a v else a)
                          (faqs db) |}), w1).
Proof.
  intros Hin Hnd Hg. cbn [task_for fst snd].
  unfold generate_embedding_async, try_except, bind, ret.
  rewrite Hg. now rewrite (set_embedding_unique faq v (faqs db) Hin Hnd).
Qed.

Lemma queued_task_embeds_its_row_witness :
  let db := {| faqs := [Scripted.faq_reset; Scripted.faq_pending] |} in
  let w := Scripted.start (Scripted.in_domain [Return Scripted.v11]) in
  generate_embedding_async (C := Scripted.earliest) 3 "delete account" db w
  = (Return (TaskSuccess 3,
             {| faqs := [Scripted.faq_reset;
                         with_embedding Scripted.faq_pending Scripted.v11]
             |}),
     {| remote := Scripted.in_domain [];
        calls := [EmbeddingsCall "delete account"] |}).
Proof.
  intros db w.
  apply (queued_task_embeds_its_row (C := Scripted.earliest)
           Scripted.faq_pending db w
           {| remote := Scripted.in_domain [];
              calls := [EmbeddingsCall "delete account"] |}
           Scripted.v11).
  - right; left; reflexivity.
  - cbn. repeat constructor; cbn; intuition discriminate.
  - vm_compute. reflexivity.
Defined.
